(** * llm-agents-learn: the environment loader and the GitHub MCP agent

    A shallow embedding of [utils/env_loader.py] and of the control path of
    [mcp_ai_agents/github_mcp_agent/github_agent_documented.py], with the
    properties of the configuration resolver, of query composition, of the
    tool-server launch descriptor and of the bounded agent invocation.

    Python values are modelled as follows.
    - [str] is [string]; one [ascii] stands for one character of the Python
      string, so [String.length] is [len], and literals that contain
      non-ASCII marks are kept as their UTF-8 bytes.
    - [Optional[str]] is [option string].
    - [os.environ] is a finite map [gmap string string].
    - A raised exception is a value of [exn]; a call that may raise returns
      a [result]. *)

From Stdlib Require Import QArith Ascii.
From stdpp Require Import base option list strings gmap fin_maps.

(** ** Python strings *)

Module PyStr.

(** The line feed of an f-string's ["\n"]. *)
Definition nl : string := String (Ascii.ascii_of_nat 10) "".

(** [bool(s)] for a [str]: the empty string is falsy. *)
Definition truthy (s : string) : bool :=
  match s with
  | EmptyString => false
  | String _ _ => true
  end.

(** [bool(v)] for an [Optional[str]]: [None] and [""] are falsy. *)
Definition truthy_opt (v : option string) : bool :=
  match v with
  | None => false
  | Some s => truthy s
  end.

(** [bool(l)] for a list. *)
Definition truthy_list {A} (l : list A) : bool :=
  match l with
  | [] => false
  | _ :: _ => true
  end.

(** [hay.startswith(needle)]. *)
Fixpoint startswith (needle hay : string) : bool :=
  match needle, hay with
  | EmptyString, _ => true
  | String a n', String b h' =>
      if decide (a = b) then startswith n' h' else false
  | String _ _, EmptyString => false
  end.

(** [needle in hay]: the substring test of [str.__contains__]. *)
Fixpoint contains (needle hay : string) : bool :=
  startswith needle hay ||
  match hay with
  | EmptyString => false
  | String _ h' => contains needle h'
  end.

(** [sep.join(l)]. *)
Fixpoint join (sep : string) (l : list string) : string :=
  match l with
  | [] => ""
  | x :: l' =>
      match l' with
      | [] => x
      | _ :: _ => x +:+ sep +:+ join sep l'
      end
  end.

(** [s[:n]]. *)
Fixpoint take (n : nat) (s : string) : string :=
  match n, s with
  | S n', String a s' => String a (take n' s')
  | _, _ => ""
  end.

(** [s[n:]]. *)
Fixpoint drop (n : nat) (s : string) : string :=
  match n, s with
  | S n', String _ s' => drop n' s'
  | _, _ => s
  end.

(** [s[-n:]] for [n > 0]: the last [n] characters, or all of [s] when it
    is shorter. *)
Definition last_chars (n : nat) (s : string) : string :=
  drop (String.length s - n) s.

(** [c.lower()] for one character: an ASCII capital becomes its small
    letter, any other character is left as it is. Python also lowers
    capitals outside ASCII; none of them lowers to a letter that occurs in
    the names looked up with [lower] here, so those lookups are the same. *)
Definition lower_char (c : Ascii.ascii) : Ascii.ascii :=
  let n := Ascii.nat_of_ascii c in
  if (65 <=? n) && (n <=? 90) then Ascii.ascii_of_nat (n + 32) else c.

(** [s.lower()], character by character. *)
Fixpoint lower (s : string) : string :=
  match s with
  | EmptyString => EmptyString
  | String c s' => String (lower_char c) (lower s')
  end.

(** What [in] decides: [needle] occurs somewhere inside [hay]. *)
Definition occurs_in (needle hay : string) : Prop :=
  ∃ pre post, hay = pre +:+ needle +:+ post.

End PyStr.

(** ** Exceptions *)

(** The classes the sources distinguish: [ValueError] is raised by the
    loader, [TimeoutError] is [asyncio.TimeoutError], [OtherException] is
    any further subclass of [Exception], and [NonException] is a
    [BaseException] outside [Exception] (such as [KeyboardInterrupt]), which
    [except Exception] does not catch. *)
Inductive exc_class := ValueError | TimeoutError | OtherException | NonException.

(** An exception instance: its class and [str(e)]. *)
Record exn := Exn { exn_class : exc_class; exn_str : string }.

Inductive result (A : Type) :=
  | Return (a : A)
  | Raise (e : exn).
Arguments Return {A} a.
Arguments Raise {A} e.

(** [isinstance(e, Exception)]. *)
Definition is_Exception (e : exn) : bool :=
  match exn_class e with
  | NonException => false
  | _ => true
  end.

(** [isinstance(e, asyncio.TimeoutError)]. *)
Definition is_TimeoutError (e : exn) : bool :=
  match exn_class e with
  | TimeoutError => true
  | _ => false
  end.

(** ** The process environment *)

(** [os.getenv(key, default)]. *)
Definition os_getenv (environ : gmap string string) (key : string)
    (default : option string) : option string :=
  match environ !! key with
  | Some v => Some v
  | None => default
  end.

(** ** utils/env_loader.py *)

Module env_loader.
Import PyStr.

(** *** Paths and the file system seen by [load_env]

    A [pathlib.Path] that is absolute, as [Path.cwd()] is, is the list of its
    components below the root; the root is [[]]. *)

(** [p.parent]; the root is its own parent. *)
Definition parent (p : list string) : list string := removelast p.

(** The [env_file] argument as [pathlib] reads it: relative to the directory
    it is joined to, or absolute. *)
Inductive file_arg :=
  | Relative (parts : list string)
  | Absolute (parts : list string).

(** [current_dir / env_file]: an absolute right operand replaces the left
    one. *)
Definition truediv (current_dir : list string) (env_file : file_arg) : list string :=
  match env_file with
  | Relative parts => current_dir ++ parts
  | Absolute parts => parts
  end.

(** [str(p)] of an absolute path. *)
Definition path_str (p : list string) : string := "/" +:+ join "/" p.

(** [str(env_file)] in the message of the [else] branch. *)
Definition file_arg_str (f : file_arg) : string :=
  match f with
  | Relative parts => join "/" parts
  | Absolute parts => path_str parts
  end.

(** A settings file as python-dotenv reads its lines: the [KEY=VALUE]
    bindings in file order, each value as written, before any [${NAME}] in
    it is expanded; a key without [=] carries [None]. *)
Definition dotenv_file : Type := list (string * option string).

(** What the file system holds at a path: a regular file, or a
    directory. A path that is not in the map does not exist. *)
Inductive entry :=
  | RegularFile (f : dotenv_file)
  | Directory.

(** [potential_path.exists()]: true of a file and of a directory. *)
Definition exists_ (fs : gmap (list string) entry) (p : list string) : bool :=
  bool_decide (is_Some (fs !! p)).

(** *** python-dotenv's [load_dotenv(path)] with its defaults
    [override=False] and [interpolate=True] *)

(** The pieces of a value: literal text, and references [${NAME}] or
    [${NAME:-DEFAULT}]. *)
Inductive atom :=
  | Literal (value : string)
  | VariableRef (name : string) (default : option string).

(** The longest prefix of [s] with no character in [stop], and the rest. *)
Fixpoint span (stop : Ascii.ascii → bool) (s : string) : string * string :=
  match s with
  | EmptyString => ("", "")
  | String c s' =>
      if stop c then ("", s)
      else let '(taken, rest) := span stop s' in (String c taken, rest)
  end.

Definition is_brace_or_colon (c : Ascii.ascii) : bool :=
  bool_decide (c = "}"%char) || bool_decide (c = ":"%char).

Definition is_brace (c : Ascii.ascii) : bool := bool_decide (c = "}"%char).

(** One match of the pattern for references at the start of [s]: [${],
    a name made of any characters but [}] and [:], then either [}], or
    [:-], a default made of any characters but [}], and [}]. The result is
    the reference and what follows it. *)
Definition match_variable (s : string) : option (atom * string) :=
  match s with
  | String "$" (String "{" s1) =>
      let '(name, r1) := span is_brace_or_colon s1 in
      match r1 with
      | String "}" rest => Some (VariableRef name None, rest)
      | String ":" (String "-" s2) =>
          let '(default, r2) := span is_brace s2 in
          match r2 with
          | String "}" rest => Some (VariableRef name (Some default), rest)
          | _ => None
          end
      | _ => None
      end
  | _ => None
  end.

(** A character of literal text joins the literal that follows it. *)
Definition literal_cons (c : Ascii.ascii) (atoms : list atom) : list atom :=
  match atoms with
  | Literal value :: atoms' => Literal (String c value) :: atoms'
  | _ => Literal (String c "") :: atoms
  end.

(** [parse_variables(value)], scanning from the left: where the pattern
    matches, a reference is read and the scan goes on after it, the [skip]
    characters of the match being passed over; elsewhere the character is
    literal text. *)
Fixpoint parse_variables_from (skip : nat) (s : string) : list atom :=
  match s with
  | EmptyString => []
  | String c s' =>
      match skip with
      | S skip' => parse_variables_from skip' s'
      | O =>
          match match_variable s with
          | Some (variable, rest) =>
              variable
              :: parse_variables_from (String.length s' - String.length rest) s'
          | None => literal_cons c (parse_variables_from 0 s')
          end
      end
  end.

Definition parse_variables (value : string) : list atom :=
  parse_variables_from 0 value.

(** [atom.resolve(env)], where [env] is [new_values] updated with
    [os.environ]: the environment wins over the earlier bindings of the
    file, and a name bound nowhere gives the reference's default, or the
    empty string. *)
Definition atom_resolve (environ : gmap string string)
    (new_values : gmap string (option string)) (a : atom) : string :=
  match a with
  | Literal value => value
  | VariableRef name default =>
      match environ !! name with
      | Some v => v
      | None =>
          match new_values !! name with
          | Some (Some v) => v
          | Some None => ""
          | None => from_option id "" default
          end
      end
  end.

(** The expanded value: [str().join(atom.resolve(env) for atom in atoms)]. *)
Definition resolve (environ : gmap string string)
    (new_values : gmap string (option string)) (value : string) : string :=
  join "" (atom_resolve environ new_values <$> parse_variables value).

(** [DotEnv.dict()], that is [resolve_variables] on the bindings of the
    file: each value is expanded against the environment and the bindings
    before it, and a later binding of a key replaces an earlier one. *)
Definition dotenv_values (environ : gmap string string) (f : dotenv_file)
    : gmap string (option string) :=
  foldl (λ new_values binding,
           <[binding.1 := resolve environ new_values <$> binding.2]> new_values)
        ∅ f.

(** [DotEnv.set_as_environment_variables()]: a key already in [os.environ]
    is skipped, a key bound to [None] is skipped, any other is set. *)
Definition set_as_environment_variables (d : gmap string (option string))
    (environ : gmap string string) : gmap string string :=
  environ ∪ omap id d.

(** [load_dotenv(env_path)]: only a regular file is read; for a directory
    there is nothing to apply. *)
Definition load_dotenv (fs : gmap (list string) entry)
    (env_path : list string) (environ : gmap string string) : gmap string string :=
  match fs !! env_path with
  | Some (RegularFile f) =>
      set_as_environment_variables (dotenv_values environ f) environ
  | _ => environ
  end.

(** *** [load_env] *)

(** The loop [for _ in range(3)], with [n] iterations left: the first
    directory among [current_dir] and its ancestors where the path exists. *)
Fixpoint search (fs : gmap (list string) entry) (env_file : file_arg)
    (n : nat) (current_dir : list string) : option (list string) :=
  match n with
  | O => None
  | S n' =>
      let potential_path := truediv current_dir env_file in
      if exists_ fs potential_path then Some potential_path
      else search fs env_file n' (parent current_dir)
  end.

(** What a call of [load_env] leaves behind: the value returned, the process
    environment afterwards and the lines printed. *)
Record load_env_outcome := EnvOutcome {
  returned : bool;
  environ_after : gmap string string;
  printed : list string
}.

Definition load_env (fs : gmap (list string) entry) (cwd : list string)
    (environ : gmap string string) (env_file : file_arg) (verbose : bool)
    : load_env_outcome :=
  let env_path := search fs env_file 3 cwd in
  match env_path with
  | Some env_path =>
      EnvOutcome true (load_dotenv fs env_path environ)
        (if verbose
         then ["✓ Loaded environment variables from: " +:+ path_str env_path]
         else [])
  | None =>
      EnvOutcome false environ
        (if verbose
         then ["⚠ No " +:+ file_arg_str env_file
               +:+ " file found. Using system environment variables."]
         else [])
  end.

(** The default [env_file=".env"]. *)
Definition default_env_file : file_arg := Relative [".env"].

(** *** [get_api_key] *)

(** The message of the [ValueError] of [get_api_key]. *)
Definition not_found_message (key_name : string) : string :=
  "❌ " +:+ key_name +:+ " not found in environment variables." +:+ nl
  +:+ "Please set it in your .env file or environment.".

(** The local [masked] of [get_api_key]: the rendering for display. *)
Definition masked (value : option string) : string :=
  match value with
  | Some v =>
      if truthy v && bool_decide (8 < String.length v)
      then take 4 v +:+ "..." +:+ last_chars 4 v
      else if truthy v then "***" else "Not Set"
  | None => "Not Set"
  end.

Definition get_api_key (environ : gmap string string) (key_name : string)
    (default : option string) (required : bool) : result (option string) :=
  let value := os_getenv environ key_name default in
  if required && negb (truthy_opt value)
  then Raise (Exn ValueError (not_found_message key_name))
  else
    let masked := masked value in
    Return value.

(** *** [validate_required_keys] *)

(** The test [not os.getenv(key)] of the loop. *)
Definition missing (environ : gmap string string) (key : string) : bool :=
  negb (truthy_opt (os_getenv environ key None)).

(** The loop that collects the missing names, in argument order. *)
Definition collect_missing (environ : gmap string string)
    (key_names : list string) : list string :=
  foldl (λ missing_keys key,
           if missing environ key
           then missing_keys ++ [key]
           else missing_keys)
        [] key_names.

(** The message of the [ValueError] of [validate_required_keys]. *)
Definition missing_message (missing_keys : list string) : string :=
  "❌ Missing required environment variables:" +:+ nl
  +:+ join ", " missing_keys +:+ nl
  +:+ "Please set them in your .env file.".

Definition validate_required_keys (environ : gmap string string)
    (key_names : list string) : result bool :=
  let missing_keys := collect_missing environ key_names in
  if truthy_list missing_keys
  then Raise (Exn ValueError (missing_message missing_keys))
  else Return true.

(** *** [get_model_config] and [get_service_config] *)

(** Calls that may raise, in sequence: the first exception ends the
    sequence. *)
#[global] Instance result_ret : MRet result := λ A a, Return a.

#[global] Instance result_bind : MBind result := λ A B k r,
  match r with
  | Return a => k a
  | Raise e => Raise e
  end.

(** The dict literal [configs] is built in full, entry by entry, before the
    lookup; [configs.get(provider.lower(), {})] then picks one entry. *)
Definition get_model_config (environ : gmap string string) (provider : string)
    : result (gmap string (option string)) :=
  openai_key ← get_api_key environ "OPENAI_API_KEY" None false;
  anthropic_key ← get_api_key environ "ANTHROPIC_API_KEY" None false;
  google_key ← get_api_key environ "GOOGLE_API_KEY" None false;
  cohere_key ← get_api_key environ "COHERE_API_KEY" None false;
  xai_key ← get_api_key environ "XAI_API_KEY" None false;
  let configs : gmap string (gmap string (option string)) :=
    {[ "openai" :=
         {[ "api_key" := openai_key;
            "model" := os_getenv environ "OPENAI_MODEL" (Some "gpt-4o") ]};
       "anthropic" :=
         {[ "api_key" := anthropic_key;
            "model" := os_getenv environ "ANTHROPIC_MODEL"
                         (Some "claude-3-5-sonnet-20241022") ]};
       "google" :=
         {[ "api_key" := google_key;
            "model" := os_getenv environ "GEMINI_MODEL"
                         (Some "gemini-2.0-flash-exp") ]};
       "cohere" :=
         {[ "api_key" := cohere_key;
            "model" := os_getenv environ "COHERE_MODEL" (Some "command-r-plus") ]};
       "xai" :=
         {[ "api_key" := xai_key;
            "model" := os_getenv environ "XAI_MODEL" (Some "grok-beta") ]} ]} in
  mret (default ∅ (configs !! lower provider)).

Definition get_service_config (environ : gmap string string) (service : string)
    : result (gmap string (option string)) :=
  github_token ← get_api_key environ "GITHUB_TOKEN" None false;
  notion_key ← get_api_key environ "NOTION_API_KEY" None false;
  serp_key ← get_api_key environ "SERP_API_KEY" None false;
  tavily_key ← get_api_key environ "TAVILY_API_KEY" None false;
  pinecone_key ← get_api_key environ "PINECONE_API_KEY" None false;
  weaviate_key ← get_api_key environ "WEAVIATE_API_KEY" None false;
  let configs : gmap string (gmap string (option string)) :=
    {[ "github" := {[ "token" := github_token ]};
       "notion" :=
         {[ "api_key" := notion_key;
            "database_id" := os_getenv environ "NOTION_DATABASE_ID" None ]};
       "serp" := {[ "api_key" := serp_key ]};
       "tavily" := {[ "api_key" := tavily_key ]};
       "pinecone" :=
         {[ "api_key" := pinecone_key;
            "environment" := os_getenv environ "PINECONE_ENVIRONMENT" None;
            "index" := os_getenv environ "PINECONE_INDEX" None ]};
       "weaviate" :=
         {[ "url" := os_getenv environ "WEAVIATE_URL" None;
            "api_key" := weaviate_key ]} ]} in
  mret (default ∅ (configs !! lower service)).

End env_loader.

(** ** mcp_ai_agents/github_mcp_agent/github_agent_documented.py *)

Module github_agent.
Import PyStr.

(** *** The collaborators outside the repository *)

(** [mcp.StdioServerParameters]: how to start the tool server. A value of
    the [env] dict is what [os.getenv] returned, hence optional. *)
Record StdioServerParameters := {
  command : string;
  args : list string;
  env : gmap string (option string)
}.

(** [agno.agent.Agent] as it is constructed here: the tools are those of the
    connection opened with the given parameters. *)
Record Agent := {
  tools : StdioServerParameters;
  instructions : string;
  markdown : bool
}.

(** What the outside world does when asked. [mcp_connect] is
    [MCPTools.__aenter__]: it starts the server process and returns, or
    raises. [agent_arun] is [agent.arun(message)]: the time it takes, in the
    unit of [asyncio.wait_for]'s [timeout], and what it ends with, the
    [content] of the [RunOutput] or an exception. Leaving the [async with]
    block runs [MCPTools.__aexit__], which is taken to complete and not to
    swallow the exception in flight. *)
Record world := {
  mcp_connect : StdioServerParameters → option exn;
  agent_arun : Agent → string → Q * result string
}.

(** What an invocation does to the outside world, in order. *)
Inductive event :=
  | Launch (server_params : StdioServerParameters)
  | Connected
  | RemoteCall (message : string)
  | Released.

(** *** Computations that raise and act on the outside world *)

Definition M (A : Type) : Type := result A * list event.

#[global] Instance M_ret : MRet M := λ A a, (Return a, []).

#[global] Instance M_bind : MBind M := λ A B k m,
  match m with
  | (Return a, t) => let '(r, t') := k a in (r, t ++ t')
  | (Raise e, t) => (Raise e, t)
  end.

Definition raise {A} (e : exn) : M A := (Raise e, []).

Definition emit (ev : event) : M unit := (Return tt, [ev]).

(** [await asyncio.wait_for(aw, timeout)]: the awaitable's outcome when it
    ends before the bound, [TimeoutError] when the bound is reached first;
    the timer is armed first, so an awaitable that would end exactly at the
    bound is timed out. *)
Definition wait_for {A} (aw : Q * result A) (timeout : Q) : M A :=
  if Qle_bool timeout (fst aw)
  then raise (Exn TimeoutError "")
  else (snd aw, []).

(** [async with MCPTools(server_params=server_params) as mcp_tools: body].
    The release runs on every way out of [body]; when entering raises,
    nothing was acquired and nothing is released. *)
Definition async_with_MCPTools {A} (w : world)
    (server_params : StdioServerParameters)
    (body : StdioServerParameters → M A) : M A :=
  emit (Launch server_params);;
  match mcp_connect w server_params with
  | Some e => raise e
  | None =>
      emit Connected;;
      let '(r, t) := body server_params in
      (r, t ++ [Released])
  end.

(** *** [run_github_agent] *)

Definition missing_github_token : string := "Error: GitHub token not provided".
Definition missing_openai_key : string := "Error: OpenAI API key not provided".
Definition timed_out : string := "Error: Request timed out after 120 seconds".

(** The bound of [asyncio.wait_for]. *)
Definition timeout : Q := 120.

Definition docker_args : list string :=
  ["run"; "-i"; "--rm";
   "-e"; "GITHUB_PERSONAL_ACCESS_TOKEN";
   "-e"; "GITHUB_TOOLSETS";
   "ghcr.io/github/github-mcp-server"].

(** The [server_params] built inside the [try]. The dict display
    [{**os.environ, k1: v1, k2: v2}] is evaluated left to right, a later
    key replacing an earlier one. *)
Definition server_params (environ : gmap string string) : StdioServerParameters :=
  {| command := "docker";
     args := docker_args;
     env := <["GITHUB_TOOLSETS" := Some "repos,issues,pull_requests"]>
            (<["GITHUB_PERSONAL_ACCESS_TOKEN" := os_getenv environ "GITHUB_TOKEN" None]>
             (Some <$> environ)) |}.

(** The dedented [instructions] of the agent. *)
Definition agent_instructions : string :=
  "You are a GitHub assistant. Help users explore repositories and their activity." +:+ nl
  +:+ "- Provide organized, concise insights about the repository" +:+ nl
  +:+ "- Focus on facts and data from the GitHub API" +:+ nl
  +:+ "- Use markdown formatting for better readability" +:+ nl
  +:+ "- Present numerical data in tables when appropriate" +:+ nl
  +:+ "- Include links to relevant GitHub pages when helpful" +:+ nl.

(** The [Agent(...)] created inside the [async with] block. *)
Definition new_agent (mcp_tools : StdioServerParameters) : Agent :=
  {| tools := mcp_tools;
     instructions := agent_instructions;
     markdown := true |}.

(** The body of the [try]. *)
Definition try_body (w : world) (environ : gmap string string)
    (message : string) : M string :=
  let server_params := server_params environ in
  async_with_MCPTools w server_params (λ mcp_tools,
    let agent := new_agent mcp_tools in
    response ← (emit (RemoteCall message);;
                wait_for (agent_arun w agent message) timeout);
    mret response).

(** The two [except] clauses, tried in order; an exception that matches
    neither leaves the function. *)
Definition except_clauses (m : M string) : M string :=
  match m with
  | (Return a, t) => (Return a, t)
  | (Raise e, t) =>
      if is_TimeoutError e then (Return timed_out, t)
      else if is_Exception e then (Return ("Error: " +:+ exn_str e), t)
      else (Raise e, t)
  end.

Definition run_github_agent (w : world) (environ : gmap string string)
    (message : string) : M string :=
  if negb (truthy_opt (os_getenv environ "GITHUB_TOKEN" None))
  then mret missing_github_token
  else if negb (truthy_opt (os_getenv environ "OPENAI_API_KEY" None))
  then mret missing_openai_key
  else except_clauses (try_body w environ message).

(** *** The form and the [Run Query] button *)

(** The widgets' values on one run of the script. *)
Record form := {
  openai_key : string;
  github_token : string;
  repo : string;
  query : string
}.

(** The text the query box is pre-filled with, from the query type chosen
    in the select box and the repository. *)
Definition query_template (query_type repo : string) : string :=
  if bool_decide (query_type = "Issues")
  then "Find issues labeled as bugs in " +:+ repo
  else if bool_decide (query_type = "Pull Requests")
  then "Show me recent merged PRs in " +:+ repo
  else if bool_decide (query_type = "Repository Activity")
  then "Analyze code quality trends in " +:+ repo
  else "".

(** The sidebar: a credential typed into the form is stored in
    [os.environ]. *)
Definition sidebar (f : form) (environ : gmap string string) : gmap string string :=
  let environ :=
    if truthy (openai_key f) then <["OPENAI_API_KEY" := openai_key f]> environ
    else environ in
  if truthy (github_token f) then <["GITHUB_TOKEN" := github_token f]> environ
  else environ.

(** The [full_query] handed to [run_github_agent]. *)
Definition full_query (repo query : string) : string :=
  if truthy repo && negb (contains repo query)
  then query +:+ " in " +:+ repo
  else query.

(** What pressing the button shows: an [st.error] line, or the result of
    the invocation. *)
Inductive shown :=
  | StError (message : string)
  | Results (outcome : M string).

Definition run_query (w : world) (environ : gmap string string) (f : form) : shown :=
  let environ := sidebar f environ in
  if negb (truthy (openai_key f))
  then StError "Please enter your OpenAI API key in the sidebar"
  else if negb (truthy (github_token f))
  then StError "Please enter your GitHub token in the sidebar"
  else if negb (truthy (query f))
  then StError "Please enter a query"
  else Results (run_github_agent w environ (full_query (repo f) (query f))).

(** *** Reading a trace *)

(** The number of connections open at the end of a trace that starts with
    [n] of them open. *)
Fixpoint open_connections (n : nat) (t : list event) : nat :=
  match t with
  | [] => n
  | Connected :: t' => open_connections (S n) t'
  | Released :: t' => open_connections (pred n) t'
  | _ :: t' => open_connections n t'
  end.

Definition is_launch (ev : event) : bool :=
  match ev with Launch _ => true | _ => false end.

Definition is_remote_call (ev : event) : bool :=
  match ev with RemoteCall _ => true | _ => false end.

End github_agent.

(** ** Sample inputs *)

(** An environment with one credential set, one set to the empty string and
    the others unset. *)
Definition sample_environ : gmap string string :=
  <["GITHUB_TOKEN" := "ghp_0123456789abcdef"]> (<["OPENAI_API_KEY" := ""]> ∅).

(** A settings file two levels above the working directory, and none
    nearer. *)
Definition sample_cwd : list string := ["home"; "user"; "proj"; "app"].

Definition sample_file : env_loader.dotenv_file :=
  [("SERP_API_KEY", Some "serp-key"); ("GITHUB_TOKEN", Some "from-file")].

Definition sample_fs : gmap (list string) env_loader.entry :=
  {[ ["home"; "user"; ".env"] := env_loader.RegularFile sample_file ]}.

(** Both credentials set. *)
Definition ready_environ : gmap string string :=
  <["OPENAI_API_KEY" := "sk-0123456789abcdef"]> sample_environ.

(** A tool server that starts, and an agent that needs 300 time units. *)
Definition slow_world : github_agent.world :=
  {| github_agent.mcp_connect := λ _, None;
     github_agent.agent_arun := λ _ _, (300%Q, Return "too late") |}.

(** A tool server that starts, and an agent that fails after 2 time
    units. *)
Definition failing_world : github_agent.world :=
  {| github_agent.mcp_connect := λ _, None;
     github_agent.agent_arun :=
       λ _ _, (2%Q, Raise (Exn OtherException "401 Unauthorized")) |}.

(** A tool server that cannot be started. *)
Definition unreachable_world : github_agent.world :=
  {| github_agent.mcp_connect :=
       λ _, Some (Exn OtherException "docker: command not found");
     github_agent.agent_arun := λ _ _, (0%Q, Return "") |}.

(** A tool server that starts, and an agent that answers in 5 time
    units. *)
Definition quick_world : github_agent.world :=
  {| github_agent.mcp_connect := λ _, None;
     github_agent.agent_arun := λ _ _, (5%Q, Return "3 open issues") |}.

(** A tool server that starts, and an agent interrupted from the keyboard
    after 1 time unit. *)
Definition interrupted_world : github_agent.world :=
  {| github_agent.mcp_connect := λ _, None;
     github_agent.agent_arun :=
       λ _ _, (1%Q, Raise (Exn NonException "KeyboardInterrupt")) |}.

(** A tool server whose start-up times out. *)
Definition stalled_world : github_agent.world :=
  {| github_agent.mcp_connect := λ _, Some (Exn TimeoutError "");
     github_agent.agent_arun := λ _ _, (0%Q, Return "") |}.

(** A form with every field filled, and the same form with the token
    field cleared. *)
Definition filled_form : github_agent.form :=
  {| github_agent.openai_key := "sk-typed";
     github_agent.github_token := "ghp_typed";
     github_agent.repo := "octocat/hello";
     github_agent.query := "Show open issues" |}.

Definition cleared_form : github_agent.form :=
  {| github_agent.openai_key := "sk-typed";
     github_agent.github_token := "";
     github_agent.repo := "octocat/hello";
     github_agent.query := "Show open issues" |}.

(** A settings file three levels above [sample_cwd] only. *)
Definition deep_fs : gmap (list string) env_loader.entry :=
  {[ ["home"; ".env"] := env_loader.RegularFile sample_file ]}.

(** A settings file in [sample_cwd] and another one in its parent. *)
Definition near_file : env_loader.dotenv_file :=
  [("OPENAI_API_KEY", Some "sk-from-file"); ("SERP_API_KEY", Some "near-key")].

Definition near_fs : gmap (list string) env_loader.entry :=
  <[ ["home"; "user"; "proj"; "app"; ".env"] := env_loader.RegularFile near_file ]>
    (<[ ["home"; "user"; "proj"; ".env"] := env_loader.RegularFile sample_file ]> ∅).




(** A settings file in [sample_cwd] whose values refer to the environment,
    to an earlier binding and to a name bound nowhere. *)
Definition expanding_file : env_loader.dotenv_file :=
  [("API_HOST", Some "api.example.org");
   ("API_URL", Some "https://${API_HOST}/v1");
   ("AUTH_HEADER", Some "token ${GITHUB_TOKEN}");
   ("REGION", Some "${CLOUD_REGION:-eu-west-1}");
   ("TRACE_ID", Some "${UNSET_NAME}")].

Definition expanding_fs : gmap (list string) env_loader.entry :=
  {[ ["home"; "user"; "proj"; "app"; ".env"] := env_loader.RegularFile expanding_file ]}.

(** A tool server whose start-up times out, with a description, and one
    that starts while the agent ends exactly at the bound. *)
Definition stalled_with_text_world : github_agent.world :=
  {| github_agent.mcp_connect :=
       λ _, Some (Exn TimeoutError "handshake with the tool server timed out");
     github_agent.agent_arun := λ _ _, (0%Q, Return "") |}.

Definition boundary_world : github_agent.world :=
  {| github_agent.mcp_connect := λ _, None;
     github_agent.agent_arun := λ _ _, (120%Q, Return "just in time") |}.

(** * Properties *)

(** ** Strings *)

Section strings.
Import PyStr.

Lemma app_cons (a : Ascii.ascii) (s t : string) : String a s +:+ t = String a (s +:+ t).
Proof. reflexivity. Qed.

Lemma app_empty_l (s : string) : "" +:+ s = s.
Proof. reflexivity. Qed.

Lemma app_empty_r (s : string) : s +:+ "" = s.
Proof. induction s as [|a s IH]; [done|]. by rewrite app_cons, IH. Qed.

Lemma app_assoc_str (s t u : string) : (s +:+ t) +:+ u = s +:+ t +:+ u.
Proof. induction s as [|a s IH]; [done|]. by rewrite !app_cons, IH. Qed.

Lemma length_app_str (s t : string) :
  String.length (s +:+ t) = String.length s + String.length t.
Proof. induction s as [|a s IH]; [done|]. rewrite app_cons. simpl. by rewrite IH. Qed.

Lemma truthy_true (s : string) : truthy s = true ↔ s ≠ "".
Proof. by destruct s. Qed.

Lemma truthy_false (s : string) : truthy s = false ↔ s = "".
Proof. by destruct s. Qed.

Lemma truthy_opt_true (v : option string) :
  truthy_opt v = true ↔ ∃ s, v = Some s ∧ s ≠ "".
Proof.
  destruct v as [[|a s]|]; simpl; split; try done.
  - by intros (s' & [= <-] & ?).
  - intros _. by exists (String a s).
  - by intros (s' & [=] & ?).
Qed.

Lemma truthy_opt_false (v : option string) :
  truthy_opt v = false ↔ v = None ∨ v = Some "".
Proof.
  destruct v as [[|a s]|]; simpl; split; try done; auto.
  by intros [[=]|[=]].
Qed.

(** [startswith] decides being a prefix. *)
Lemma startswith_spec (needle hay : string) :
  startswith needle hay = true ↔ ∃ post, hay = needle +:+ post.
Proof.
  revert hay. induction needle as [|a n IH]; intros hay; simpl.
  - split; [|done]. intros _. by exists hay.
  - destruct hay as [|b h].
    + split; [done|]. intros [post Hpost]. by rewrite app_cons in Hpost.
    + case_decide as Hab.
      * subst b. rewrite IH. split; intros [post Hpost]; exists post.
        -- by rewrite app_cons, Hpost.
        -- rewrite app_cons in Hpost. by simplify_eq.
      * split; [done|]. intros [post Hpost].
        rewrite app_cons in Hpost. by simplify_eq.
Qed.

(** [contains] decides [occurs_in]: Python's [in] on strings. *)
Lemma contains_spec (needle hay : string) :
  contains needle hay = true ↔ occurs_in needle hay.
Proof.
  unfold occurs_in. induction hay as [|b h IH]; simpl.
  - rewrite orb_false_r, startswith_spec. split.
    + intros [post Hpost]. by exists "", post.
    + intros [[|c pre] [post Hpost]]; [by exists post|].
      by rewrite app_cons in Hpost.
  - rewrite orb_true_iff, startswith_spec, IH. split.
    + intros [[post Hpost]|(pre & post & Hpost)].
      * by exists "", post.
      * exists (String b pre), post. by rewrite app_cons, Hpost.
    + intros [[|c pre] [post Hpost]].
      * left. by exists post.
      * right. rewrite app_cons in Hpost. simplify_eq. by exists pre, post.
Qed.

Lemma contains_false (needle hay : string) :
  contains needle hay = false ↔ ¬ occurs_in needle hay.
Proof. rewrite <-contains_spec. by destruct (contains needle hay). Qed.

Lemma occurs_in_refl (s : string) : occurs_in s s.
Proof. exists "", "". by rewrite app_empty_r. Qed.

Lemma occurs_in_app_l (needle pre hay : string) :
  occurs_in needle hay → occurs_in needle (pre +:+ hay).
Proof.
  intros (p & q & ->). exists (pre +:+ p), q. by rewrite app_assoc_str.
Qed.

Lemma occurs_in_app_r (needle hay post : string) :
  occurs_in needle hay → occurs_in needle (hay +:+ post).
Proof.
  intros (p & q & ->). exists p, (q +:+ post). by rewrite !app_assoc_str.
Qed.

(** Every element of a joined list occurs in the result. *)
Lemma occurs_in_join (sep x : string) (l : list string) :
  x ∈ l → occurs_in x (join sep l).
Proof.
  induction l as [|y l IH]; [by intros ?%elem_of_nil|].
  intros [->|Hx]%elem_of_cons; simpl.
  - destruct l; [apply occurs_in_refl|].
    apply occurs_in_app_r, occurs_in_refl.
  - destruct l as [|z l]; [by apply elem_of_nil in Hx|].
    by apply occurs_in_app_l, occurs_in_app_l, IH.
Qed.

Lemma length_take_str (n : nat) (s : string) :
  n ≤ String.length s → String.length (take n s) = n.
Proof.
  revert s. induction n as [|n IH]; intros [|a s]; simpl; try lia.
  intros ?. rewrite IH; lia.
Qed.

Lemma length_drop_str (n : nat) (s : string) :
  String.length (drop n s) = String.length s - n.
Proof.
  revert s. induction n as [|n IH]; intros [|a s]; simpl; try lia. apply IH.
Qed.

Lemma take_drop_str (n : nat) (s : string) : take n s +:+ drop n s = s.
Proof.
  revert s. induction n as [|n IH]; intros [|a s]; simpl; try done.
  by rewrite app_cons, IH.
Qed.

Lemma drop_drop_str (n m : nat) (s : string) : drop n (drop m s) = drop (m + n) s.
Proof.
  revert s. induction m as [|m IH]; intros s; simpl; [done|].
  destruct s as [|a s]; [by destruct n|]. apply IH.
Qed.

End strings.

(** ** The configuration resolver *)

Section resolver.
Import PyStr env_loader.
Implicit Types (environ : gmap string string) (key : string).

Lemma os_getenv_None environ key :
  os_getenv environ key None = environ !! key.
Proof. unfold os_getenv. by destruct (environ !! key). Qed.

(** A name is missing when it is unset or set to the empty string. *)
Lemma missing_iff environ key :
  missing environ key = true ↔ environ !! key = None ∨ environ !! key = Some "".
Proof.
  unfold missing. by rewrite negb_true_iff, truthy_opt_false, os_getenv_None.
Qed.

Lemma missing_false_iff environ key :
  missing environ key = false ↔ ∃ v, environ !! key = Some v ∧ v ≠ "".
Proof.
  unfold missing. by rewrite negb_false_iff, truthy_opt_true, os_getenv_None.
Qed.

(** The loop of [validate_required_keys] keeps exactly the missing names, in
    order and with repetitions. *)
Lemma collect_missing_filter environ (key_names : list string) :
  collect_missing environ key_names
  = filter (λ key, missing environ key = true) key_names.
Proof.
  unfold collect_missing.
  enough (∀ acc, foldl (λ missing_keys key,
                    if missing environ key then missing_keys ++ [key]
                    else missing_keys) acc key_names
                 = acc ++ filter (λ key, missing environ key = true) key_names)
    as Hgen by apply (Hgen []).
  induction key_names as [|key l IH]; intros acc; simpl.
  - by rewrite app_nil_r.
  - rewrite IH, filter_cons. destruct (missing environ key) eqn:Hkey.
    + rewrite decide_True by done. by rewrite <-app_assoc.
    + by rewrite decide_False by done.
Qed.

Lemma elem_of_collect_missing environ (key_names : list string) key :
  key ∈ collect_missing environ key_names
  ↔ key ∈ key_names ∧ missing environ key = true.
Proof. rewrite collect_missing_filter, list_elem_of_filter. tauto. Qed.

Lemma truthy_list_false {A} (l : list A) : truthy_list l = false ↔ l = [].
Proof. by destruct l. Qed.

Lemma occurs_in_missing_message (l : list string) key :
  key ∈ l → occurs_in key (missing_message l).
Proof.
  intros Hkey. unfold missing_message.
  apply occurs_in_app_l, occurs_in_app_l, occurs_in_app_r.
  by apply occurs_in_join.
Qed.

Lemma occurs_in_not_found_message key :
  occurs_in key (not_found_message key).
Proof.
  unfold not_found_message. apply occurs_in_app_l, occurs_in_app_r, occurs_in_refl.
Qed.

(** What [get_api_key] resolves before it checks: the environment value
    when the variable is set, the default otherwise. *)
Lemma os_getenv_set environ key default v :
  environ !! key = Some v → os_getenv environ key default = Some v.
Proof. unfold os_getenv. by intros ->. Qed.

Lemma os_getenv_unset environ key default :
  environ !! key = None → os_getenv environ key default = default.
Proof. unfold os_getenv. by intros ->. Qed.

Lemma get_api_key_required_falsy environ key default :
  truthy_opt (os_getenv environ key default) = false →
  get_api_key environ key default true
  = Raise (Exn ValueError (not_found_message key)).
Proof. unfold get_api_key. by intros ->. Qed.

Lemma get_api_key_returns environ key default required :
  required = false ∨ truthy_opt (os_getenv environ key default) = true →
  get_api_key environ key default required
  = Return (os_getenv environ key default).
Proof.
  unfold get_api_key. intros [->| ->]; [done|]. by rewrite andb_false_r.
Qed.

End resolver.

Section resolver_claims.
Import PyStr env_loader.
Implicit Types (environ : gmap string string) (key : string).

(** C1: batch validation. When some given name is missing (unset, or set
    to the empty string), [validate_required_keys] raises a [ValueError]
    whose message carries the comma-separated list of all missing names of
    the argument list, so every missing name occurs in the message; when no
    given name is missing it returns [True]. *)
Theorem validate_required_keys_lists_every_missing environ (key_names : list string) :
  ((∃ key, key ∈ key_names ∧ missing environ key = true) →
   ∃ msg,
     validate_required_keys environ key_names = Raise (Exn ValueError msg)
     ∧ msg = missing_message (filter (λ key, missing environ key = true) key_names)
     ∧ ∀ key, key ∈ key_names → missing environ key = true → occurs_in key msg)
  ∧ ((∀ key, key ∈ key_names → missing environ key = false) →
     validate_required_keys environ key_names = Return true).
Proof.
  unfold validate_required_keys. split.
  - intros (key0 & Hin & Hmiss).
    destruct (collect_missing environ key_names) as [|k l] eqn:Hcoll.
    { assert (key0 ∈ collect_missing environ key_names) as Hkey0
        by by apply elem_of_collect_missing.
      rewrite Hcoll in Hkey0. by apply elem_of_nil in Hkey0. }
    simpl. eexists. split; [done|]. rewrite <-collect_missing_filter, Hcoll.
    split; [done|]. intros key Hkey Hm.
    apply occurs_in_missing_message. rewrite <-Hcoll.
    by apply elem_of_collect_missing.
  - intros Hall.
    destruct (collect_missing environ key_names) as [|k l] eqn:Hcoll; [done|].
    assert (k ∈ collect_missing environ key_names) as Hk
      by (rewrite Hcoll; apply elem_of_cons; by left).
    apply elem_of_collect_missing in Hk as [Hin Hm].
    rewrite (Hall k Hin) in Hm. done.
Qed.

Lemma validate_required_keys_lists_every_missing_witness :
  validate_required_keys sample_environ
    ["NOTION_API_KEY"; "GITHUB_TOKEN"; "OPENAI_API_KEY"; "SERP_API_KEY"]
  = Raise (Exn ValueError
      ("❌ Missing required environment variables:" +:+ nl
       +:+ "NOTION_API_KEY, OPENAI_API_KEY, SERP_API_KEY" +:+ nl
       +:+ "Please set them in your .env file."))
  ∧ validate_required_keys sample_environ ["GITHUB_TOKEN"] = Return true.
Proof.
  split.
  - destruct (proj1 (validate_required_keys_lists_every_missing sample_environ
        ["NOTION_API_KEY"; "GITHUB_TOKEN"; "OPENAI_API_KEY"; "SERP_API_KEY"]))
      as (msg & -> & -> & _).
    + exists "NOTION_API_KEY". split; [|reflexivity].
      apply elem_of_cons. by left.
    + reflexivity.
  - apply (proj2 (validate_required_keys_lists_every_missing sample_environ
        ["GITHUB_TOKEN"])).
    intros key ->%list_elem_of_singleton. reflexivity.
Defined.

(** C8, as stated, fails: a variable that is set, to the empty string, is
    not returned when [required] is true; the call raises. *)
Lemma get_api_key_set_but_empty_raises :
  sample_environ !! "OPENAI_API_KEY" = Some ""
  ∧ get_api_key sample_environ "OPENAI_API_KEY" None true ≠ Return (Some "")
  ∧ get_api_key sample_environ "OPENAI_API_KEY" None true
    = Raise (Exn ValueError (not_found_message "OPENAI_API_KEY")).
Proof. split; [reflexivity|]. split; [discriminate|reflexivity]. Qed.

(** C8, amended: [get_api_key] resolves the value to the environment value
    when the variable is set (to any string) and to the default when it is
    unset. When [required] is true and the resolved value is absent or
    empty, it raises a [ValueError] whose message names the variable. In
    every other case, [required] false or a non-empty resolved value, it
    returns the resolved value: the environment value, else the default,
    else [None]. *)
Theorem get_api_key_resolves_or_fails environ key (default : option string)
    (required : bool) :
  let value := os_getenv environ key default in
  (∀ v, environ !! key = Some v → value = Some v)
  ∧ (environ !! key = None → value = default)
  ∧ (required = true → value = None ∨ value = Some "" →
     get_api_key environ key default required
     = Raise (Exn ValueError (not_found_message key))
     ∧ occurs_in key (not_found_message key))
  ∧ (required = false ∨ (∃ v, value = Some v ∧ v ≠ "") →
     get_api_key environ key default required = Return value).
Proof.
  intros value. split; [|split; [|split]].
  - intros v. apply os_getenv_set.
  - apply os_getenv_unset.
  - intros -> Hfalsy%truthy_opt_false. split.
    + by apply get_api_key_required_falsy.
    + apply occurs_in_not_found_message.
  - intros Hcase. apply get_api_key_returns.
    destruct Hcase as [?|?%truthy_opt_true]; auto.
Qed.

Lemma get_api_key_resolves_or_fails_witness :
  get_api_key sample_environ "GITHUB_TOKEN" (Some "fallback") true
  = Return (Some "ghp_0123456789abcdef")
  ∧ get_api_key sample_environ "SERP_API_KEY" (Some "fallback") true
    = Return (Some "fallback")
  ∧ get_api_key sample_environ "SERP_API_KEY" None true
    = Raise (Exn ValueError (not_found_message "SERP_API_KEY"))
  ∧ get_api_key sample_environ "SERP_API_KEY" None false = Return None.
Proof.
  split; [|split; [|split]].
  - apply (get_api_key_resolves_or_fails sample_environ "GITHUB_TOKEN"
             (Some "fallback") true).
    right. by exists "ghp_0123456789abcdef".
  - apply (get_api_key_resolves_or_fails sample_environ "SERP_API_KEY"
             (Some "fallback") true).
    right. by exists "fallback".
  - apply (get_api_key_resolves_or_fails sample_environ "SERP_API_KEY" None true).
    + reflexivity.
    + by left.
  - apply (get_api_key_resolves_or_fails sample_environ "SERP_API_KEY" None false).
    by left.
Defined.

(** C9: the masked rendering. A non-empty value of at most eight
    characters is rendered as the placeholder ["***"]; a longer value as its
    first four characters, ["..."] and its last four characters; and what
    [get_api_key] returns is the resolved value itself, whatever its
    rendering. An absent or empty value is rendered as ["Not Set"]. *)
Theorem masked_shows_placeholder_or_ends :
  (∀ v, v ≠ "" → String.length v ≤ 8 → masked (Some v) = "***")
  ∧ (∀ v, 8 < String.length v →
     masked (Some v) = take 4 v +:+ "..." +:+ last_chars 4 v
     ∧ String.length (take 4 v) = 4
     ∧ String.length (last_chars 4 v) = 4
     ∧ ∃ middle, v = take 4 v +:+ middle +:+ last_chars 4 v)
  ∧ masked None = "Not Set" ∧ masked (Some "") = "Not Set"
  ∧ (∀ environ key default required r,
     get_api_key environ key default required = Return r →
     r = os_getenv environ key default).
Proof.
  split; [|split; [|split; [|split]]]; try done.
  - intros v Hne Hlen. unfold masked.
    apply truthy_true in Hne as ->.
    rewrite bool_decide_eq_false_2 by lia. done.
  - intros v Hlen. unfold masked, last_chars.
    assert (truthy v = true) as -> by (destruct v; [simpl in Hlen; lia|done]).
    rewrite bool_decide_eq_true_2 by done. cbv [andb].
    split; [done|]. split; [apply length_take_str; lia|].
    split; [rewrite length_drop_str; lia|].
    exists (take (String.length v - 8) (drop 4 v)).
    transitivity (take 4 v +:+ drop 4 v); [by rewrite take_drop_str|].
    f_equal.
    transitivity (take (String.length v - 8) (drop 4 v)
                  +:+ drop (String.length v - 8) (drop 4 v));
      [by rewrite take_drop_str|].
    f_equal. rewrite drop_drop_str. f_equal. lia.
  - intros environ key default required r. unfold get_api_key.
    destruct (_ && _); [done|]. by intros [= <-].
Qed.

Lemma masked_shows_placeholder_or_ends_witness :
  masked (Some "sk-12345") = "***"
  ∧ masked (Some "ghp_0123456789abcdef") = "ghp_...cdef"
  ∧ get_api_key sample_environ "GITHUB_TOKEN" None true
    = Return (Some "ghp_0123456789abcdef").
Proof.
  destruct masked_shows_placeholder_or_ends as (Hshort & Hlong & _ & _ & Hret).
  split; [|split].
  - apply Hshort; [discriminate|simpl; lia].
  - destruct (Hlong "ghp_0123456789abcdef") as (-> & _); [simpl; lia|].
    reflexivity.
  - destruct (get_api_key sample_environ "GITHUB_TOKEN" None true) as [r|e] eqn:Hget.
    + f_equal. apply (Hret _ _ _ _ _ Hget).
    + discriminate Hget.
Defined.

(** C10: a variable set to the empty string counts as missing for the
    required checks. [get_api_key] with [required] true raises for it,
    whatever the default; an empty-string default does not satisfy the
    requirement of an unset variable; and [validate_required_keys] raises
    and lists the name among the missing ones. *)
Theorem empty_value_is_missing environ key :
  (environ !! key = Some "" →
   (∀ default, get_api_key environ key default true
               = Raise (Exn ValueError (not_found_message key)))
   ∧ (∀ key_names : list string, key ∈ key_names →
      key ∈ collect_missing environ key_names
      ∧ validate_required_keys environ key_names
        = Raise (Exn ValueError (missing_message (collect_missing environ key_names)))
      ∧ occurs_in key (missing_message (collect_missing environ key_names))))
  ∧ (environ !! key = None →
     get_api_key environ key (Some "") true
     = Raise (Exn ValueError (not_found_message key))).
Proof.
  split.
  - intros Hempty. split.
    + intros default. apply get_api_key_required_falsy.
      by rewrite (os_getenv_set _ _ _ _ Hempty).
    + intros key_names Hin.
      assert (key ∈ collect_missing environ key_names) as Hcoll.
      { apply elem_of_collect_missing. split; [done|].
        apply missing_iff. by right. }
      split; [done|]. split; [|by apply occurs_in_missing_message].
      unfold validate_required_keys.
      destruct (collect_missing environ key_names); [|done].
      by apply elem_of_nil in Hcoll.
  - intros Hunset. apply get_api_key_required_falsy.
    by rewrite (os_getenv_unset _ _ _ Hunset).
Qed.

Lemma empty_value_is_missing_witness :
  get_api_key sample_environ "OPENAI_API_KEY" (Some "fallback") true
  = Raise (Exn ValueError (not_found_message "OPENAI_API_KEY"))
  ∧ validate_required_keys sample_environ ["GITHUB_TOKEN"; "OPENAI_API_KEY"]
    = Raise (Exn ValueError (missing_message ["OPENAI_API_KEY"]))
  ∧ get_api_key sample_environ "SERP_API_KEY" (Some "") true
    = Raise (Exn ValueError (not_found_message "SERP_API_KEY")).
Proof.
  split; [|split].
  - apply (proj1 (empty_value_is_missing sample_environ "OPENAI_API_KEY")).
    reflexivity.
  - destruct (proj1 (empty_value_is_missing sample_environ "OPENAI_API_KEY"))
      as [_ Hval]; [reflexivity|].
    destruct (Hval ["GITHUB_TOKEN"; "OPENAI_API_KEY"]) as (_ & -> & _).
    + apply elem_of_cons. right. apply elem_of_cons. by left.
    + reflexivity.
  - apply (proj2 (empty_value_is_missing sample_environ "SERP_API_KEY")).
    reflexivity.
Defined.

End resolver_claims.

(** ** The settings-file loader *)

Section loader.
Import PyStr env_loader.
Implicit Types (fs : gmap (list string) entry)
  (environ : gmap string string) (d : gmap string (option string)).

Lemma exists_true fs (p : list string) :
  exists_ fs p = true ↔ is_Some (fs !! p).
Proof. unfold exists_. apply bool_decide_eq_true. Qed.

Lemma exists_false fs (p : list string) :
  exists_ fs p = false ↔ fs !! p = None.
Proof.
  unfold exists_. by rewrite bool_decide_eq_false, eq_None_not_Some.
Qed.

(** The environment after the file's bindings were applied: a variable that
    was set keeps its value, an unset one takes the file's value if the file
    gives it one. *)
Lemma lookup_set_as_environment_variables d environ (k : string) :
  set_as_environment_variables d environ !! k
  = match environ !! k with
    | Some v => Some v
    | None => d !! k ≫= id
    end.
Proof.
  unfold set_as_environment_variables.
  destruct (environ !! k) as [v|] eqn:Hk.
  - by apply lookup_union_Some_l.
  - rewrite lookup_union_r by done. apply lookup_omap.
Qed.

Lemma load_dotenv_keeps fs (env_path : list string) environ (k v : string) :
  environ !! k = Some v → load_dotenv fs env_path environ !! k = Some v.
Proof.
  intros Hk. unfold load_dotenv. destruct (fs !! env_path) as [[f|]|]; [|done..].
  by rewrite lookup_set_as_environment_variables, Hk.
Qed.





(** The value the file gives a key is that of its last binding, expanded
    against the environment and the bindings before it. *)
Lemma dotenv_values_snoc environ (f : list (string * option string))
    (k : string) (v : option string) :
  dotenv_values environ (f ++ [(k, v)])
  = <[k := resolve environ (dotenv_values environ f) <$> v]>
      (dotenv_values environ f).
Proof. unfold dotenv_values. by rewrite foldl_app. Qed.


(** Whether the file gives a key a value does not depend on the
    environment the values are expanded against. *)
Lemma dotenv_values_shape (environ environ' : gmap string string)
    (f : list (string * option string)) (k : string) :
  is_Some (dotenv_values environ f !! k ≫= id)
  ↔ is_Some (dotenv_values environ' f !! k ≫= id).
Proof.
  enough (fmap (M:=option) (fmap (M:=option) (λ _ : string, ()))
            (dotenv_values environ f !! k)
          = fmap (M:=option) (fmap (M:=option) (λ _ : string, ()))
              (dotenv_values environ' f !! k)) as Hshape.
  { destruct (dotenv_values environ f !! k) as [[v|]|],
      (dotenv_values environ' f !! k) as [[v'|]|];
      simplify_eq/=; split; intros [? ?]; simplify_eq/=; eauto. }
  induction f as [|[k' v'] f IH] using rev_ind; [done|].
  rewrite !dotenv_values_snoc. destruct (decide (k' = k)) as [->|Hne].
  - rewrite !lookup_insert_eq. by destruct v'.
  - by rewrite !lookup_insert_ne.
Qed.

(** The three directories the loop visits. *)
Lemma search_three fs (env_file : file_arg) (cwd : list string) :
  search fs env_file 3 cwd
  = if exists_ fs (truediv cwd env_file)
    then Some (truediv cwd env_file)
    else if exists_ fs (truediv (parent cwd) env_file)
    then Some (truediv (parent cwd) env_file)
    else if exists_ fs (truediv (parent (parent cwd)) env_file)
    then Some (truediv (parent (parent cwd)) env_file)
    else None.
Proof. reflexivity. Qed.

(** When nothing of the name, file or directory, is in the working
    directory, its parent or its grandparent, [load_env] returns [False]
    and leaves the environment as it is, whatever lies further up. *)
Lemma load_env_not_beyond fs (cwd : list string) environ (env_file : file_arg)
    (verbose : bool) :
  fs !! truediv cwd env_file = None →
  fs !! truediv (parent cwd) env_file = None →
  fs !! truediv (parent (parent cwd)) env_file = None →
  returned (load_env fs cwd environ env_file verbose) = false
  ∧ environ_after (load_env fs cwd environ env_file verbose) = environ.
Proof.
  intros H0%exists_false H1%exists_false H2%exists_false.
  unfold load_env. by rewrite search_three, H0, H1, H2.
Qed.

(** [load_env] never changes a variable that is set. *)
Lemma load_env_keeps fs (cwd : list string) environ (env_file : file_arg)
    (verbose : bool) (k v : string) :
  environ !! k = Some v →
  environ_after (load_env fs cwd environ env_file verbose) !! k = Some v.
Proof.
  intros Hk. unfold load_env.
  destruct (search fs env_file 3 cwd); simpl; [|done].
  by apply load_dotenv_keeps.
Qed.

(** The environment after [load_env], from the regular file the search
    finds. *)
Lemma load_env_found fs (cwd : list string) environ (env_file : file_arg)
    (verbose : bool) (p : list string) (f : dotenv_file) :
  search fs env_file 3 cwd = Some p → fs !! p = Some (RegularFile f) →
  returned (load_env fs cwd environ env_file verbose) = true
  ∧ environ_after (load_env fs cwd environ env_file verbose)
    = set_as_environment_variables (dotenv_values environ f) environ.
Proof.
  intros Hsearch Hf. unfold load_env, load_dotenv.
  rewrite Hsearch. simpl. by rewrite Hf.
Qed.

End loader.

Section loader_claims.
Import PyStr env_loader.
Implicit Types (fs : gmap (list string) entry)
  (environ : gmap string string).




End loader_claims.

(** ** The bounded agent invocation *)

Section invocation.
Import PyStr github_agent.
Implicit Types (w : world) (environ : gmap string string) (message : string).

(** With both credentials present the invocation is the [try] statement. *)
Lemma run_github_agent_with_credentials w environ message :
  truthy_opt (os_getenv environ "GITHUB_TOKEN" None) = true →
  truthy_opt (os_getenv environ "OPENAI_API_KEY" None) = true →
  run_github_agent w environ message
  = except_clauses (try_body w environ message).
Proof. unfold run_github_agent. by intros -> ->. Qed.

(** Entering the [async with] block fails: nothing was acquired. *)
Lemma try_body_connect_fails w environ message (e : exn) :
  mcp_connect w (server_params environ) = Some e →
  try_body w environ message = (Raise e, [Launch (server_params environ)]).
Proof.
  intros Hconn. unfold try_body, async_with_MCPTools. by rewrite Hconn.
Qed.

(** The block was entered: the remote call is made, bounded, and the
    connection is released whatever the call ends with. *)
Lemma try_body_connected w environ message :
  mcp_connect w (server_params environ) = None →
  try_body w environ message
  = (let aw := agent_arun w (new_agent (server_params environ)) message in
     if Qle_bool timeout aw.1 then Raise (Exn TimeoutError "") else aw.2,
     [Launch (server_params environ); Connected; RemoteCall message; Released]).
Proof.
  intros Hconn. unfold try_body, async_with_MCPTools, wait_for. rewrite Hconn.
  destruct (agent_arun w (new_agent (server_params environ)) message)
    as [elapsed outcome]; simpl.
  destruct (Qle_bool timeout elapsed); [done|by destruct outcome].
Qed.

Lemma Qle_bool_false (x y : Q) : (y < x)%Q → Qle_bool x y = false.
Proof.
  intros Hlt. destruct (Qle_bool x y) eqn:Hle; [|done].
  apply Qle_bool_iff in Hle. by apply Qlt_not_le in Hlt.
Qed.

Lemma Qle_bool_true (x y : Q) : (x < y)%Q → Qle_bool x y = true.
Proof. intros Hlt. by apply Qle_bool_iff, Qlt_le_weak. Qed.

Lemma Qle_bool_false_lt (x y : Q) : Qle_bool x y = false → (y < x)%Q.
Proof.
  intros Hle. apply Qnot_le_lt. intros Hxy%Qle_bool_iff. congruence.
Qed.

(** Success: the agent's text comes back unmodified. *)
Lemma run_github_agent_success w environ message (content : string) (elapsed : Q) :
  truthy_opt (os_getenv environ "GITHUB_TOKEN" None) = true →
  truthy_opt (os_getenv environ "OPENAI_API_KEY" None) = true →
  mcp_connect w (server_params environ) = None →
  agent_arun w (new_agent (server_params environ)) message
  = (elapsed, Return content) →
  (elapsed < timeout)%Q →
  run_github_agent w environ message
  = (Return content,
     [Launch (server_params environ); Connected; RemoteCall message; Released]).
Proof.
  intros Hgh Hai Hconn Hrun Hlt%Qle_bool_false.
  rewrite run_github_agent_with_credentials, try_body_connected by done.
  rewrite Hrun. simpl. by rewrite Hlt.
Qed.

(** No connection stays open, on any way out of the invocation. *)
Lemma run_github_agent_releases w environ message :
  open_connections 0 (run_github_agent w environ message).2 = 0.
Proof.
  unfold run_github_agent.
  destruct (truthy_opt (os_getenv environ "GITHUB_TOKEN" None)); [|done].
  destruct (truthy_opt (os_getenv environ "OPENAI_API_KEY" None)); [|done].
  simpl.
  destruct (mcp_connect w (server_params environ)) as [e|] eqn:Hconn.
  - rewrite (try_body_connect_fails _ _ _ _ Hconn). simpl.
    by destruct (is_TimeoutError e), (is_Exception e).
  - rewrite (try_body_connected _ _ _ Hconn). simpl.
    destruct (Qle_bool _ _); [done|].
    destruct (agent_arun w _ message).2 as [a|e]; [done|]. simpl.
    by destruct (is_TimeoutError e), (is_Exception e).
Qed.

(** An exception outside [Exception] is not caught; the connection is
    released all the same. *)
Lemma run_github_agent_propagates w environ message (e : exn) (elapsed : Q) :
  truthy_opt (os_getenv environ "GITHUB_TOKEN" None) = true →
  truthy_opt (os_getenv environ "OPENAI_API_KEY" None) = true →
  mcp_connect w (server_params environ) = None →
  agent_arun w (new_agent (server_params environ)) message = (elapsed, Raise e) →
  (elapsed < timeout)%Q →
  exn_class e = NonException →
  run_github_agent w environ message
  = (Raise e,
     [Launch (server_params environ); Connected; RemoteCall message; Released]).
Proof.
  intros Hgh Hai Hconn Hrun Hlt%Qle_bool_false Hclass.
  rewrite run_github_agent_with_credentials, try_body_connected by done.
  rewrite Hrun. simpl. rewrite Hlt. simpl.
  unfold is_TimeoutError, is_Exception. by rewrite Hclass.
Qed.

(** A remote call that would end exactly at the bound is timed out. *)
Lemma run_github_agent_at_the_bound :
  run_github_agent boundary_world ready_environ "Show open issues"
  = (Return "Error: Request timed out after 120 seconds",
     [Launch (server_params ready_environ); Connected;
      RemoteCall "Show open issues"; Released]).
Proof. reflexivity. Qed.

(** The query handed to the invocation when the button's checks pass. *)
Lemma run_query_dispatches_full_query w environ (f : form) :
  openai_key f ≠ "" → github_token f ≠ "" → query f ≠ "" →
  run_query w environ f
  = Results (run_github_agent w (sidebar f environ)
               (full_query (repo f) (query f))).
Proof.
  intros Hai%truthy_true Hgh%truthy_true Hq%truthy_true.
  unfold run_query. by rewrite Hai, Hgh, Hq.
Qed.

End invocation.

Section invocation_claims.
Import PyStr github_agent.
Implicit Types (w : world) (environ : gmap string string) (message : string).

(** C2: query composition. When the repository identifier is non-empty
    and does not occur in the query text, the query handed on is the text
    followed by [" in "] and the identifier, once; when the identifier is
    empty or occurs in the text already, it is the text unchanged.
    Composing a second time changes nothing. *)
Theorem full_query_appends_once (repo query : string) :
  (repo ≠ "" → ¬ occurs_in repo query →
   full_query repo query = query +:+ " in " +:+ repo)
  ∧ (repo = "" ∨ occurs_in repo query → full_query repo query = query)
  ∧ full_query repo (full_query repo query) = full_query repo query.
Proof.
  assert (repo = "" ∨ occurs_in repo query → full_query repo query = query)
    as Hsame.
  { unfold full_query. intros [->|Hin%contains_spec]; [done|].
    by rewrite Hin, andb_false_r. }
  assert (repo ≠ "" → ¬ occurs_in repo query →
          full_query repo query = query +:+ " in " +:+ repo) as Hadd.
  { unfold full_query. intros Hne%truthy_true Hout%contains_false.
    by rewrite Hne, Hout. }
  split; [done|]. split; [done|].
  destruct (decide (repo = "")) as [->|Hne]; [done|].
  destruct (contains repo query) eqn:Hin.
  - apply contains_spec in Hin. by rewrite !Hsame by auto.
  - apply contains_false in Hin. rewrite (Hadd Hne Hin).
    unfold full_query at 1.
    assert (contains repo (query +:+ " in " +:+ repo) = true) as ->; [|by rewrite andb_false_r].
    apply contains_spec. do 2 apply occurs_in_app_l. apply occurs_in_refl.
Qed.

Lemma full_query_appends_once_witness :
  full_query "octocat/hello" "Show open issues" = "Show open issues in octocat/hello"
  ∧ full_query "octocat/hello" "Show open issues in octocat/hello"
    = "Show open issues in octocat/hello"
  ∧ full_query "" "Show open issues" = "Show open issues".
Proof.
  split; [|split].
  - apply (proj1 (full_query_appends_once "octocat/hello" "Show open issues"));
      [discriminate|].
    apply contains_false. reflexivity.
  - apply (proj1 (proj2 (full_query_appends_once "octocat/hello"
                           "Show open issues in octocat/hello"))).
    right. apply contains_spec. reflexivity.
  - apply (proj1 (proj2 (full_query_appends_once "" "Show open issues"))).
    by left.
Defined.

(** C3: missing credentials. For every message and whatever the outside
    world would do, with [GITHUB_TOKEN] unset or empty the invocation
    returns the missing-GitHub-token message, and with [GITHUB_TOKEN] set
    but [OPENAI_API_KEY] unset or empty the missing-OpenAI-key message; in
    both cases nothing at all is done to the outside world: no process is
    launched and no remote call is made. *)
Theorem missing_credential_returns_before_any_effect w environ message :
  (truthy_opt (os_getenv environ "GITHUB_TOKEN" None) = false →
   run_github_agent w environ message = (Return missing_github_token, []))
  ∧ (truthy_opt (os_getenv environ "GITHUB_TOKEN" None) = true →
     truthy_opt (os_getenv environ "OPENAI_API_KEY" None) = false →
     run_github_agent w environ message = (Return missing_openai_key, [])).
Proof.
  unfold run_github_agent. split.
  - by intros ->.
  - by intros -> ->.
Qed.

Lemma missing_credential_returns_before_any_effect_witness :
  run_github_agent slow_world ∅ "Show open issues"
  = (Return "Error: GitHub token not provided", [])
  ∧ run_github_agent slow_world sample_environ "Show open issues"
    = (Return "Error: OpenAI API key not provided", []).
Proof.
  split.
  - apply (proj1 (missing_credential_returns_before_any_effect slow_world ∅
                    "Show open issues")).
    reflexivity.
  - apply (proj2 (missing_credential_returns_before_any_effect slow_world
                    sample_environ "Show open issues")); reflexivity.
Defined.

(** C4: the timeout. With both credentials present and the connection
    opened, a remote call that takes longer than the bound of 120 makes
    the invocation return the fixed timed-out message; the connection is
    released after the call, and none is open at the end. *)
Theorem timeout_returns_message_and_releases w environ message :
  truthy_opt (os_getenv environ "GITHUB_TOKEN" None) = true →
  truthy_opt (os_getenv environ "OPENAI_API_KEY" None) = true →
  mcp_connect w (server_params environ) = None →
  (120 < (agent_arun w (new_agent (server_params environ)) message).1)%Q →
  run_github_agent w environ message
  = (Return "Error: Request timed out after 120 seconds",
     [Launch (server_params environ); Connected; RemoteCall message; Released])
  ∧ open_connections 0 (run_github_agent w environ message).2 = 0.
Proof.
  intros Hgh Hai Hconn Hslow. split; [|apply run_github_agent_releases].
  rewrite run_github_agent_with_credentials, try_body_connected by done.
  unfold timeout. by rewrite (Qle_bool_true _ _ Hslow).
Qed.

Lemma timeout_returns_message_and_releases_witness :
  run_github_agent slow_world ready_environ "Show open issues"
  = (Return "Error: Request timed out after 120 seconds",
     [Launch (server_params ready_environ); Connected;
      RemoteCall "Show open issues"; Released]).
Proof.
  apply (timeout_returns_message_and_releases slow_world ready_environ
           "Show open issues"); reflexivity.
Defined.

(** C5, as stated, fails for two kinds of failure. A [TimeoutError] raised
    while the connection is opened is answered with the fixed timed-out
    message, which does not contain the failure's description; and an
    exception outside [Exception] raised by the remote call is not turned
    into a string: it leaves the invocation. *)
Lemma failure_not_always_described :
  (mcp_connect stalled_with_text_world (server_params ready_environ)
   = Some (Exn TimeoutError "handshake with the tool server timed out")
   ∧ run_github_agent stalled_with_text_world ready_environ "Show open issues"
     = (Return "Error: Request timed out after 120 seconds",
        [Launch (server_params ready_environ)])
   ∧ ¬ occurs_in "handshake with the tool server timed out"
         "Error: Request timed out after 120 seconds")
  ∧ (agent_arun interrupted_world (new_agent (server_params ready_environ))
       "Show open issues"
     = (1%Q, Raise (Exn NonException "KeyboardInterrupt"))
     ∧ (run_github_agent interrupted_world ready_environ "Show open issues").1
       = Raise (Exn NonException "KeyboardInterrupt")).
Proof.
  repeat split; try reflexivity. apply contains_false. reflexivity.
Qed.

(** C5, amended: any other failure that is an [Exception]. With both
    credentials present, when opening the connection raises an exception
    [e] of class [Exception] that is not a [TimeoutError], or the
    connection is open and the remote call raises such an [e] before the
    bound is reached, the invocation returns the text ["Error: "] followed
    by [str(e)]; it returns, it does not raise. No connection is open at
    the end, and a connection that was opened is released last. *)
Theorem failure_returns_description_and_releases w environ message (e : exn) :
  truthy_opt (os_getenv environ "GITHUB_TOKEN" None) = true →
  truthy_opt (os_getenv environ "OPENAI_API_KEY" None) = true →
  is_Exception e = true →
  is_TimeoutError e = false →
  (mcp_connect w (server_params environ) = Some e
   ∨ mcp_connect w (server_params environ) = None
     ∧ ∃ elapsed, (elapsed < 120)%Q
         ∧ agent_arun w (new_agent (server_params environ)) message
           = (elapsed, Raise e)) →
  ∃ t, run_github_agent w environ message = (Return ("Error: " +:+ exn_str e), t)
    ∧ occurs_in (exn_str e) ("Error: " +:+ exn_str e)
    ∧ open_connections 0 t = 0
    ∧ (mcp_connect w (server_params environ) = None → last t = Some Released).
Proof.
  intros Hgh Hai Hexc Hnot Hcase.
  pose proof (run_github_agent_releases w environ message) as Hrel.
  rewrite run_github_agent_with_credentials in * by done.
  destruct Hcase as [Hconn|(Hconn & elapsed & Hle%Qle_bool_false & Hrun)].
  - rewrite (try_body_connect_fails _ _ _ _ Hconn) in *. simpl in *.
    rewrite Hnot, Hexc in *. eexists. split; [done|].
    split; [apply occurs_in_app_l, occurs_in_refl|]. split; [done|].
    by rewrite Hconn.
  - rewrite (try_body_connected _ _ _ Hconn) in *. rewrite Hrun in *.
    simpl in *. unfold timeout in *. rewrite Hle in *. simpl in *.
    rewrite Hnot, Hexc in *. eexists. split; [done|].
    split; [apply occurs_in_app_l, occurs_in_refl|]. done.
Qed.

Lemma failure_returns_description_and_releases_witness :
  (∃ t, run_github_agent failing_world ready_environ "Show open issues"
        = (Return "Error: 401 Unauthorized", t)
        ∧ last t = Some Released)
  ∧ ∃ t, run_github_agent unreachable_world ready_environ "Show open issues"
         = (Return "Error: docker: command not found", t)
         ∧ open_connections 0 t = 0.
Proof.
  split.
  - destruct (failure_returns_description_and_releases failing_world
                ready_environ "Show open issues"
                (Exn OtherException "401 Unauthorized"))
      as (t & Hrun & _ & _ & Hlast); try reflexivity.
    + right. split; [reflexivity|]. exists 2%Q. split; [|reflexivity].
      by vm_compute.
    + exists t. split; [exact Hrun|]. apply Hlast. reflexivity.
  - destruct (failure_returns_description_and_releases unreachable_world
                ready_environ "Show open issues"
                (Exn OtherException "docker: command not found"))
      as (t & Hrun & _ & Hopen & _); try reflexivity.
    + left. reflexivity.
    + exists t. split; [exact Hrun|exact Hopen].
Defined.

(** C7: the launch descriptor. With both credentials present, the one
    process launch of an invocation uses [server_params]: the command
    [docker] with the fixed arguments, and an environment map that is the
    process environment except at two keys, where
    [GITHUB_PERSONAL_ACCESS_TOKEN] holds the value of [GITHUB_TOKEN] and
    [GITHUB_TOOLSETS] holds ["repos,issues,pull_requests"], whatever the
    process environment holds at these two keys. *)
Theorem server_params_injects_two_values w environ message (token : string) :
  environ !! "GITHUB_TOKEN" = Some token →
  token ≠ "" →
  truthy_opt (os_getenv environ "OPENAI_API_KEY" None) = true →
  let sp := server_params environ in
  (∃ t, (run_github_agent w environ message).2 = Launch sp :: t
        ∧ Forall (λ ev, is_launch ev = false) t)
  ∧ command sp = "docker"
  ∧ args sp = docker_args
  ∧ env sp !! "GITHUB_PERSONAL_ACCESS_TOKEN" = Some (Some token)
  ∧ env sp !! "GITHUB_TOOLSETS" = Some (Some "repos,issues,pull_requests")
  ∧ ∀ k, k ≠ "GITHUB_PERSONAL_ACCESS_TOKEN" → k ≠ "GITHUB_TOOLSETS" →
         env sp !! k = Some <$> environ !! k.
Proof.
  intros Htok Hne Hai sp. subst sp.
  assert (truthy_opt (os_getenv environ "GITHUB_TOKEN" None) = true) as Hgh.
  { apply truthy_opt_true. exists token. by rewrite os_getenv_None. }
  split; [|split; [done|split; [done|split; [|split]]]].
  - rewrite run_github_agent_with_credentials by done.
    destruct (mcp_connect w (server_params environ)) as [e|] eqn:Hconn.
    + rewrite (try_body_connect_fails _ _ _ _ Hconn). exists [].
      split; [|by constructor]. simpl.
      by destruct (is_TimeoutError e), (is_Exception e).
    + rewrite (try_body_connected _ _ _ Hconn).
      exists [Connected; RemoteCall message; Released].
      split; [|by repeat constructor]. simpl.
      destruct (Qle_bool _ _); [done|].
      destruct (agent_arun w _ message).2 as [a|e]; [done|]. simpl.
      by destruct (is_TimeoutError e), (is_Exception e).
  - simpl. rewrite lookup_insert_ne by done.
    by rewrite lookup_insert_eq, os_getenv_None, Htok.
  - simpl. by rewrite lookup_insert_eq.
  - intros k Hk1 Hk2. simpl.
    by rewrite !lookup_insert_ne, lookup_fmap by done.
Qed.

Lemma server_params_injects_two_values_witness :
  let environ := <["GITHUB_TOOLSETS" := "all"]>
                   (<["GITHUB_PERSONAL_ACCESS_TOKEN" := "stale"]> ready_environ) in
  env (server_params environ) !! "GITHUB_PERSONAL_ACCESS_TOKEN"
  = Some (Some "ghp_0123456789abcdef")
  ∧ env (server_params environ) !! "GITHUB_TOOLSETS"
    = Some (Some "repos,issues,pull_requests")
  ∧ env (server_params environ) !! "OPENAI_API_KEY"
    = Some (Some "sk-0123456789abcdef").
Proof.
  intros environ.
  destruct (server_params_injects_two_values slow_world environ
              "Show open issues" "ghp_0123456789abcdef")
    as (_ & _ & _ & Htoken & Htoolsets & Hrest);
    [reflexivity|discriminate|reflexivity|].
  split; [exact Htoken|]. split; [exact Htoolsets|].
  rewrite Hrest by discriminate. reflexivity.
Defined.

End invocation_claims.

(** ** Further properties of the invocation and of the form *)

Section invocation_more.
Import PyStr github_agent.
Implicit Types (w : world) (environ : gmap string string) (message : string).

(** The [except] clauses change the outcome, never what was done. *)
Lemma except_clauses_trace (m : M string) : (except_clauses m).2 = m.2.
Proof.
  destruct m as [[a|e] t]; simpl; [done|].
  by destruct (is_TimeoutError e), (is_Exception e).
Qed.

(** What was done to the outside world, case by case. *)
Lemma run_github_agent_trace w environ message :
  (run_github_agent w environ message).2
  = if truthy_opt (os_getenv environ "GITHUB_TOKEN" None)
       && truthy_opt (os_getenv environ "OPENAI_API_KEY" None)
    then match mcp_connect w (server_params environ) with
         | Some _ => [Launch (server_params environ)]
         | None => [Launch (server_params environ); Connected;
                    RemoteCall message; Released]
         end
    else [].
Proof.
  unfold run_github_agent.
  destruct (truthy_opt (os_getenv environ "GITHUB_TOKEN" None)); [|done].
  destruct (truthy_opt (os_getenv environ "OPENAI_API_KEY" None)); [|done].
  simpl. rewrite except_clauses_trace.
  destruct (mcp_connect w (server_params environ)) as [e|] eqn:Hconn.
  - by rewrite (try_body_connect_fails _ _ _ _ Hconn).
  - by rewrite (try_body_connected _ _ _ Hconn).
Qed.

(** With both credentials present, the connection opened and the remote
    call ending before the bound is reached, the invocation returns the
    agent's [content] as it is, after one launch, one remote call carrying the
    message, and the release. *)
Theorem success_returns_content_unmodified w environ message (content : string)
    (elapsed : Q) :
  truthy_opt (os_getenv environ "GITHUB_TOKEN" None) = true →
  truthy_opt (os_getenv environ "OPENAI_API_KEY" None) = true →
  mcp_connect w (server_params environ) = None →
  agent_arun w (new_agent (server_params environ)) message
  = (elapsed, Return content) →
  (elapsed < 120)%Q →
  run_github_agent w environ message
  = (Return content,
     [Launch (server_params environ); Connected; RemoteCall message; Released]).
Proof.
  intros Hgh Hai Hconn Hrun Hlt%Qle_bool_false.
  rewrite run_github_agent_with_credentials, try_body_connected by done.
  rewrite Hrun. unfold timeout. simpl. by rewrite Hlt.
Qed.

Lemma success_returns_content_unmodified_witness :
  run_github_agent quick_world ready_environ "Show open issues"
  = (Return "3 open issues",
     [Launch (server_params ready_environ); Connected;
      RemoteCall "Show open issues"; Released]).
Proof.
  apply (success_returns_content_unmodified quick_world ready_environ
           "Show open issues" "3 open issues" 5%Q); reflexivity.
Defined.

(** What an invocation does to the outside world, in every case: nothing
    when a credential is missing; one launch when the connection cannot be
    opened; otherwise one launch, the connection, one remote call with the
    message given, and the release. So there is never a second launch or a
    second remote call, and no connection is left open. *)
Theorem run_github_agent_trace_shape w environ message :
  let t := (run_github_agent w environ message).2 in
  t = (if truthy_opt (os_getenv environ "GITHUB_TOKEN" None)
          && truthy_opt (os_getenv environ "OPENAI_API_KEY" None)
       then match mcp_connect w (server_params environ) with
            | Some _ => [Launch (server_params environ)]
            | None => [Launch (server_params environ); Connected;
                       RemoteCall message; Released]
            end
       else [])
  ∧ length (filter (λ ev, is_launch ev = true) t) ≤ 1
  ∧ length (filter (λ ev, is_remote_call ev = true) t) ≤ 1
  ∧ open_connections 0 t = 0.
Proof.
  intros t. subst t. rewrite run_github_agent_trace.
  destruct (_ && _); [|repeat split; simpl; lia].
  destruct (mcp_connect w (server_params environ));
    repeat split; simpl; lia.
Qed.

(** The invocation raises exactly the exceptions that are no [Exception]:
    it raises [e] if and only if both credentials are present, [e] is
    outside [Exception], and [e] was raised on opening the connection or by
    the remote call before the bound was reached. Every other outcome is a
    returned string. *)
Theorem run_github_agent_raises_iff w environ message (e : exn) :
  (run_github_agent w environ message).1 = Raise e
  ↔ truthy_opt (os_getenv environ "GITHUB_TOKEN" None) = true
    ∧ truthy_opt (os_getenv environ "OPENAI_API_KEY" None) = true
    ∧ is_Exception e = false
    ∧ (mcp_connect w (server_params environ) = Some e
       ∨ mcp_connect w (server_params environ) = None
         ∧ ((agent_arun w (new_agent (server_params environ)) message).1 < 120)%Q
         ∧ (agent_arun w (new_agent (server_params environ)) message).2 = Raise e).
Proof.
  assert (∀ (e' : exn) (t : list event),
            (except_clauses (Raise e', t)).1 = Raise e
            ↔ e' = e ∧ is_Exception e = false) as Hexc.
  { intros e' t. simpl. destruct (is_TimeoutError e') eqn:Ht.
    - simpl. split; [done|]. intros [-> Hne].
      unfold is_TimeoutError, is_Exception in *. by destruct (exn_class e).
    - destruct (is_Exception e') eqn:He'; simpl.
      + split; [done|]. intros [-> Hne]. congruence.
      + split; [by intros [= ->]|by intros [-> _]]. }
  unfold run_github_agent.
  destruct (truthy_opt (os_getenv environ "GITHUB_TOKEN" None)); simpl;
    [|split; [done|by intros (? & _)]].
  destruct (truthy_opt (os_getenv environ "OPENAI_API_KEY" None)); simpl;
    [|split; [done|by intros (_ & ? & _)]].
  destruct (mcp_connect w (server_params environ)) as [e'|] eqn:Hconn.
  - rewrite (try_body_connect_fails _ _ _ _ Hconn), Hexc. split.
    + intros [-> Hne]. auto.
    + intros (_ & _ & Hne & [[= ->]|[[=] _]]). done.
  - rewrite (try_body_connected _ _ _ Hconn). unfold timeout. cbv zeta.
    destruct (agent_arun w (new_agent (server_params environ)) message)
      as [elapsed outcome]. cbn [fst snd].
    destruct (Qle_bool 120 elapsed) eqn:Hbound.
    + simpl. split; [done|].
      intros (_ & _ & _ & [[=]|(_ & Hlt%Qle_bool_false & _)]). congruence.
    + apply Qle_bool_false_lt in Hbound. destruct outcome as [a|e'].
      * simpl. split; [done|]. by intros (_ & _ & _ & [[=]|(_ & _ & [=])]).
      * rewrite Hexc. split.
        -- intros [-> Hne]. auto 10.
        -- by intros (_ & _ & Hne & [[=]|(_ & _ & [= ->])]).
Qed.

Lemma run_github_agent_raises_iff_witness :
  (run_github_agent interrupted_world ready_environ "Show open issues").1
  = Raise (Exn NonException "KeyboardInterrupt")
  ∧ ∀ e, (run_github_agent failing_world ready_environ "Show open issues").1
         ≠ Raise e.
Proof.
  split.
  - apply (proj2 (run_github_agent_raises_iff interrupted_world ready_environ
                    "Show open issues" (Exn NonException "KeyboardInterrupt"))).
    repeat split. right. repeat split.
  - intros e Hraise.
    apply (proj1 (run_github_agent_raises_iff failing_world ready_environ
                    "Show open issues" e)) in Hraise
      as (_ & _ & Hne & [[=]|(_ & _ & [= <-])]).
    discriminate Hne.
Defined.

(** A timeout raised while the connection is being opened is reported with
    the same fixed message as a remote call that ran out of time, although
    no remote call was made. *)
Theorem connect_timeout_reported_as_timed_out w environ message (e : exn) :
  truthy_opt (os_getenv environ "GITHUB_TOKEN" None) = true →
  truthy_opt (os_getenv environ "OPENAI_API_KEY" None) = true →
  mcp_connect w (server_params environ) = Some e →
  is_TimeoutError e = true →
  run_github_agent w environ message
  = (Return "Error: Request timed out after 120 seconds",
     [Launch (server_params environ)]).
Proof.
  intros Hgh Hai Hconn Ht.
  rewrite run_github_agent_with_credentials by done.
  rewrite (try_body_connect_fails _ _ _ _ Hconn). simpl. by rewrite Ht.
Qed.

Lemma connect_timeout_reported_as_timed_out_witness :
  run_github_agent stalled_world ready_environ "Show open issues"
  = (Return "Error: Request timed out after 120 seconds",
     [Launch (server_params ready_environ)]).
Proof.
  apply (connect_timeout_reported_as_timed_out stalled_world ready_environ
           "Show open issues" (Exn TimeoutError "")); reflexivity.
Defined.

End invocation_more.

Section form_more.
Import PyStr github_agent.
Implicit Types (w : world) (environ : gmap string string) (f : form).

(** What the sidebar leaves in the environment. *)
Lemma lookup_sidebar f environ (k : string) :
  sidebar f environ !! k
  = if bool_decide (k = "GITHUB_TOKEN") && truthy (github_token f)
    then Some (github_token f)
    else if bool_decide (k = "OPENAI_API_KEY") && truthy (openai_key f)
    then Some (openai_key f)
    else environ !! k.
Proof.
  unfold sidebar.
  destruct (truthy (github_token f)), (truthy (openai_key f));
    rewrite ?andb_true_r, ?andb_false_r;
    repeat case_bool_decide; subst; simplify_map_eq; done.
Qed.

(** Pressing the button invokes the agent exactly when the OpenAI key, the
    GitHub token and the query of the form are all non-empty; in every
    other case it shows an error line and does nothing else. What the
    environment holds plays no part in this check. *)
Theorem run_query_invokes_iff_form_filled w environ f :
  (∃ outcome, run_query w environ f = Results outcome)
  ↔ openai_key f ≠ "" ∧ github_token f ≠ "" ∧ query f ≠ "".
Proof.
  unfold run_query. rewrite <-!truthy_true.
  destruct (truthy (openai_key f)), (truthy (github_token f)),
    (truthy (query f)); simpl; split;
    try (by intros [? [=]]); try (by intros (? & ? & ?)); eauto.
Qed.

(** When the button's checks pass, the invocation finds both credentials,
    whatever the environment held before: the tool server is launched, and
    the token it is given is the one typed into the form. *)
Theorem run_query_launches_with_form_token w environ f :
  openai_key f ≠ "" → github_token f ≠ "" → query f ≠ "" →
  let sp := server_params (sidebar f environ) in
  (∃ r t, run_query w environ f = Results (r, Launch sp :: t))
  ∧ env sp !! "GITHUB_PERSONAL_ACCESS_TOKEN" = Some (Some (github_token f)).
Proof.
  intros Hai Hgh Hq sp. subst sp.
  assert (os_getenv (sidebar f environ) "GITHUB_TOKEN" None
          = Some (github_token f)) as Hgh'.
  { rewrite os_getenv_None, lookup_sidebar.
    by rewrite (proj2 (truthy_true _) Hgh). }
  assert (os_getenv (sidebar f environ) "OPENAI_API_KEY" None
          = Some (openai_key f)) as Hai'.
  { rewrite os_getenv_None, lookup_sidebar.
    by rewrite (proj2 (truthy_true _) Hai). }
  split.
  - rewrite run_query_dispatches_full_query by done.
    pose proof (run_github_agent_trace w (sidebar f environ)
                  (full_query (repo f) (query f))) as Ht.
    rewrite Hgh', Hai' in Ht. simpl in Ht.
    rewrite (proj2 (truthy_true _) Hgh), (proj2 (truthy_true _) Hai) in Ht.
    simpl in Ht.
    destruct (run_github_agent w (sidebar f environ)
                (full_query (repo f) (query f))) as [r t].
    simpl in Ht. subst t. exists r.
    destruct (mcp_connect w (server_params (sidebar f environ))); eauto.
  - simpl. rewrite lookup_insert_ne by done.
    by rewrite lookup_insert_eq, Hgh'.
Qed.

Lemma run_query_launches_with_form_token_witness :
  (∃ r t, run_query quick_world sample_environ filled_form
          = Results (r, Launch (server_params (sidebar filled_form sample_environ)) :: t))
  ∧ env (server_params (sidebar filled_form sample_environ))
      !! "GITHUB_PERSONAL_ACCESS_TOKEN" = Some (Some "ghp_typed").
Proof.
  apply (run_query_launches_with_form_token quick_world sample_environ
           filled_form); discriminate.
Defined.

(** The sidebar writes at most two variables and never clears one: a
    field left empty keeps what the environment held, so a credential typed
    once stays in the environment after its field is cleared. Running the
    sidebar again with the same form changes nothing. *)
Theorem sidebar_keeps_and_is_idempotent f environ :
  (∀ k, k ≠ "OPENAI_API_KEY" → k ≠ "GITHUB_TOKEN" →
        sidebar f environ !! k = environ !! k)
  ∧ (github_token f = "" →
     sidebar f environ !! "GITHUB_TOKEN" = environ !! "GITHUB_TOKEN")
  ∧ (openai_key f = "" →
     sidebar f environ !! "OPENAI_API_KEY" = environ !! "OPENAI_API_KEY")
  ∧ (∀ f', github_token f ≠ "" → github_token f' = "" →
           sidebar f' (sidebar f environ) !! "GITHUB_TOKEN"
           = Some (github_token f))
  ∧ sidebar f (sidebar f environ) = sidebar f environ.
Proof.
  split; [|split; [|split; [|split]]].
  - intros k Hk1 Hk2. rewrite lookup_sidebar.
    by rewrite !bool_decide_eq_false_2 by done.
  - intros Hgh. rewrite lookup_sidebar, Hgh.
    by rewrite andb_false_r, bool_decide_eq_false_2 by done.
  - intros Hai. rewrite lookup_sidebar, Hai.
    by rewrite !andb_false_r, bool_decide_eq_false_2 by done.
  - intros f' Hgh Hgh'. rewrite lookup_sidebar, Hgh'.
    rewrite andb_false_r, bool_decide_eq_false_2 by done.
    rewrite lookup_sidebar. by rewrite (proj2 (truthy_true _) Hgh).
  - apply map_eq. intros k. rewrite !lookup_sidebar.
    destruct (bool_decide (k = "GITHUB_TOKEN") && truthy (github_token f));
      [done|].
    by destruct (bool_decide (k = "OPENAI_API_KEY") && truthy (openai_key f)).
Qed.

Lemma sidebar_keeps_and_is_idempotent_witness :
  sidebar cleared_form (sidebar filled_form ∅) !! "GITHUB_TOKEN"
  = Some "ghp_typed"
  ∧ sidebar cleared_form sample_environ !! "GITHUB_TOKEN"
    = Some "ghp_0123456789abcdef".
Proof.
  destruct (sidebar_keeps_and_is_idempotent filled_form ∅)
    as (_ & _ & _ & Hstays & _).
  destruct (sidebar_keeps_and_is_idempotent cleared_form sample_environ)
    as (_ & Hkeeps & _).
  split.
  - apply Hstays; [discriminate|reflexivity].
  - rewrite Hkeeps by reflexivity. reflexivity.
Defined.

(** The pre-filled query of each of the three fixed query types is not
    empty and already names the repository, so composing the full query
    leaves it as it is: the repository is not appended a second time. Any
    other query type pre-fills nothing. *)
Theorem query_template_is_not_extended (query_type repo : string) :
  (query_type ∈ ["Issues"; "Pull Requests"; "Repository Activity"] →
   query_template query_type repo ≠ ""
   ∧ occurs_in repo (query_template query_type repo)
   ∧ full_query repo (query_template query_type repo)
     = query_template query_type repo)
  ∧ (query_type ∉ ["Issues"; "Pull Requests"; "Repository Activity"] →
     query_template query_type repo = "").
Proof.
  split.
  - intros Hqt.
    assert (∃ pre, pre ≠ "" ∧ query_template query_type repo = pre +:+ repo)
      as (pre & Hpre & ->).
    { unfold query_template.
      repeat (apply elem_of_cons in Hqt as [->|Hqt]);
        [| | |by apply elem_of_nil in Hqt]; simpl;
        eexists; (split; [|reflexivity]); done. }
    assert (occurs_in repo (pre +:+ repo)) as Hocc
      by apply occurs_in_app_l, occurs_in_refl.
    split; [by destruct pre|]. split; [done|].
    unfold full_query. apply contains_spec in Hocc. rewrite Hocc.
    by rewrite andb_false_r.
  - intros Hqt. unfold query_template.
    rewrite !bool_decide_eq_false_2; [done|..];
      intros ->; apply Hqt; repeat constructor.
Qed.

Lemma query_template_is_not_extended_witness :
  full_query "octocat/hello" (query_template "Pull Requests" "octocat/hello")
  = "Show me recent merged PRs in octocat/hello"
  ∧ query_template "Custom" "octocat/hello" = "".
Proof.
  destruct (query_template_is_not_extended "Pull Requests" "octocat/hello")
    as [Hfixed _].
  destruct (query_template_is_not_extended "Custom" "octocat/hello")
    as [_ Hother].
  split.
  - destruct Hfixed as (_ & _ & ->); [|reflexivity].
    apply elem_of_cons. right. apply elem_of_cons. by left.
  - apply Hother. intros Hin.
    repeat (apply elem_of_cons in Hin as [[=]|Hin]).
    by apply elem_of_nil in Hin.
Defined.

(** The full query always begins with the query text as typed, always
    names the repository, and is at most the text, [" in "] and the
    repository long. *)
Theorem full_query_keeps_text_and_names_repo (repo query : string) :
  (∃ rest, full_query repo query = query +:+ rest)
  ∧ occurs_in repo (full_query repo query)
  ∧ String.length (full_query repo query)
    ≤ String.length query + 4 + String.length repo.
Proof.
  unfold full_query.
  destruct (truthy repo) eqn:Hrepo; simpl.
  - destruct (contains repo query) eqn:Hin; simpl.
    + split; [exists ""; by rewrite app_empty_r|].
      split; [by apply contains_spec|lia].
    + split; [by eexists|].
      split; [do 2 apply occurs_in_app_l; apply occurs_in_refl|].
      rewrite !length_app_str. simpl. lia.
  - apply truthy_false in Hrepo as ->.
    split; [exists ""; by rewrite app_empty_r|].
    split; [by exists "", query|lia].
Qed.

Lemma run_query_invokes_iff_form_filled_witness :
  (∃ outcome, run_query quick_world ∅ filled_form = Results outcome)
  ∧ ¬ ∃ outcome, run_query quick_world ready_environ cleared_form
                 = Results outcome.
Proof.
  split.
  - apply (proj2 (run_query_invokes_iff_form_filled quick_world ∅ filled_form)).
    repeat split; discriminate.
  - intros Hinvoked.
    apply (proj1 (run_query_invokes_iff_form_filled quick_world ready_environ
                    cleared_form)) in Hinvoked as (_ & Htoken & _).
    by apply Htoken.
Defined.

End form_more.

(** ** Further properties of the loader and of the resolver *)

Section loader_more.
Import PyStr env_loader.
Implicit Types (fs : gmap (list string) entry)
  (environ : gmap string string) (key : string).

(** The nearest file wins: a regular settings file in the working
    directory is the one applied whatever its ancestors hold, and one in
    the parent is applied when nothing of the name, file or directory, is
    in the working directory, whatever the grandparent holds. Applying
    gives every unset variable the value of the file, its references
    expanded. *)
Theorem load_env_nearest_file_wins fs (cwd : list string) environ
    (env_file : file_arg) (verbose : bool) (f : dotenv_file) :
  (fs !! truediv cwd env_file = Some (RegularFile f)
   ∨ fs !! truediv cwd env_file = None
     ∧ fs !! truediv (parent cwd) env_file = Some (RegularFile f)) →
  returned (load_env fs cwd environ env_file verbose) = true
  ∧ environ_after (load_env fs cwd environ env_file verbose)
    = set_as_environment_variables (dotenv_values environ f) environ.
Proof.
  intros [Hcwd|[Hcwd Hparent]].
  - apply (load_env_found _ _ _ _ _ (truediv cwd env_file)); [|done].
    rewrite search_three.
    by rewrite (proj2 (exists_true _ _)) by (by rewrite Hcwd).
  - apply (load_env_found _ _ _ _ _ (truediv (parent cwd) env_file)); [|done].
    rewrite search_three, (proj2 (exists_false _ _) Hcwd).
    by rewrite (proj2 (exists_true _ _)) by (by rewrite Hparent).
Qed.

Lemma load_env_nearest_file_wins_witness :
  environ_after (load_env near_fs sample_cwd ∅ default_env_file false)
    !! "SERP_API_KEY" = Some "near-key".
Proof.
  destruct (load_env_nearest_file_wins near_fs sample_cwd ∅ default_env_file
              false near_file) as [_ ->]; [left|]; reflexivity.
Defined.

(** A second [load_env] changes nothing: the environment after loading
    twice is the environment after loading once. *)
Theorem load_env_twice_is_once fs (cwd : list string) environ
    (env_file : file_arg) (verbose verbose' : bool) :
  environ_after
    (load_env fs cwd
       (environ_after (load_env fs cwd environ env_file verbose))
       env_file verbose')
  = environ_after (load_env fs cwd environ env_file verbose).
Proof.
  unfold load_env. destruct (search fs env_file 3 cwd) as [p|]; simpl; [|done].
  unfold load_dotenv. destruct (fs !! p) as [[f|]|]; [|done..].
  set (environ' := set_as_environment_variables (dotenv_values environ f) environ).
  apply map_eq. intros k. rewrite lookup_set_as_environment_variables.
  destruct (environ' !! k) as [v|] eqn:Hk; [done|].
  apply eq_None_not_Some. intros Hsome.
  apply (dotenv_values_shape _ environ) in Hsome as [v Hv].
  unfold environ' in Hk. rewrite lookup_set_as_environment_variables in Hk.
  destruct (environ !! k); [done|]. congruence.
Qed.

(** Loading does not repair a variable that is set to the empty string:
    the variable stays empty whatever the settings file binds it to, and
    the batch validation of the loaded environment still fails and names
    it. *)
Theorem load_env_leaves_empty_variable_missing fs (cwd : list string) environ
    (env_file : file_arg) (verbose : bool) key (key_names : list string) :
  environ !! key = Some "" → key ∈ key_names →
  let environ' := environ_after (load_env fs cwd environ env_file verbose) in
  environ' !! key = Some ""
  ∧ ∃ msg, validate_required_keys environ' key_names = Raise (Exn ValueError msg)
           ∧ occurs_in key msg.
Proof.
  intros Hempty Hin environ'. subst environ'.
  pose proof (load_env_keeps fs cwd environ env_file verbose _ _ Hempty) as Hkept.
  split; [done|]. unfold validate_required_keys.
  set (environ' := environ_after _) in *.
  assert (key ∈ collect_missing environ' key_names) as Hcoll.
  { apply elem_of_collect_missing. split; [done|]. apply missing_iff. by right. }
  destruct (collect_missing environ' key_names) as [|k l] eqn:Hl;
    [by apply elem_of_nil in Hcoll|].
  simpl. eexists. split; [done|]. by apply occurs_in_missing_message.
Qed.

Lemma load_env_leaves_empty_variable_missing_witness :
  let environ' :=
    environ_after (load_env near_fs sample_cwd sample_environ
                     default_env_file false) in
  environ' !! "OPENAI_API_KEY" = Some ""
  ∧ ∃ msg, validate_required_keys environ' ["GITHUB_TOKEN"; "OPENAI_API_KEY"]
           = Raise (Exn ValueError msg)
           ∧ occurs_in "OPENAI_API_KEY" msg.
Proof.
  apply (load_env_leaves_empty_variable_missing near_fs sample_cwd
           sample_environ default_env_file false "OPENAI_API_KEY"
           ["GITHUB_TOKEN"; "OPENAI_API_KEY"]).
  - reflexivity.
  - apply elem_of_cons. right. apply elem_of_cons. by left.
Defined.

(** Loading then resolving: a variable that is unset and to which the
    regular file found gives a non-empty value, its references expanded,
    is returned with that value by [get_api_key] afterwards, whatever the
    default and the required flag. *)
Theorem load_env_then_get_api_key fs (cwd : list string) environ
    (env_file : file_arg) (verbose : bool) (p : list string)
    (f : dotenv_file) key (v : string)
    (default : option string) (required : bool) :
  search fs env_file 3 cwd = Some p → fs !! p = Some (RegularFile f) →
  environ !! key = None →
  dotenv_values environ f !! key = Some (Some v) → v ≠ "" →
  get_api_key (environ_after (load_env fs cwd environ env_file verbose))
    key default required
  = Return (Some v).
Proof.
  intros Hsearch Hf Hunset Hbound Hne.
  destruct (load_env_found fs cwd environ env_file verbose p f) as [_ ->];
    [done..|].
  assert (set_as_environment_variables (dotenv_values environ f) environ !! key
          = Some v) as Hkey
    by by rewrite lookup_set_as_environment_variables, Hunset, Hbound.
  rewrite get_api_key_returns; rewrite (os_getenv_set _ _ _ _ Hkey); [done|].
  right. apply truthy_opt_true. eauto.
Qed.

Lemma load_env_then_get_api_key_witness :
  get_api_key
    (environ_after (load_env sample_fs sample_cwd sample_environ
                      default_env_file false))
    "SERP_API_KEY" None true
  = Return (Some "serp-key")
  ∧ get_api_key
      (environ_after (load_env expanding_fs sample_cwd sample_environ
                        default_env_file false))
      "AUTH_HEADER" None true
    = Return (Some "token ghp_0123456789abcdef").
Proof.
  split.
  - apply (load_env_then_get_api_key sample_fs sample_cwd sample_environ
             default_env_file false ["home"; "user"; ".env"] sample_file);
      try reflexivity.
    discriminate.
  - apply (load_env_then_get_api_key expanding_fs sample_cwd sample_environ
             default_env_file false ["home"; "user"; "proj"; "app"; ".env"]
             expanding_file);
      try reflexivity.
    discriminate.
Defined.

Lemma load_env_not_beyond_witness :
  deep_fs !! ["home"; ".env"] = Some (RegularFile sample_file)
  ∧ returned (load_env deep_fs sample_cwd sample_environ default_env_file false)
    = false
  ∧ environ_after (load_env deep_fs sample_cwd sample_environ
                     default_env_file false)
    = sample_environ.
Proof.
  split; [reflexivity|].
  apply (load_env_not_beyond deep_fs sample_cwd sample_environ
           default_env_file false); reflexivity.
Defined.

End loader_more.

Section resolver_more.
Import PyStr env_loader.
Implicit Types (environ : gmap string string) (key : string).

(** The batch validation and the single lookup agree on what is missing:
    [validate_required_keys] returns [True] exactly when [get_api_key],
    required and without default, returns a value for every given name.
    The validation never returns [False]: it returns [True] or raises. *)
Theorem validate_required_keys_agrees_with_get_api_key environ
    (key_names : list string) :
  (validate_required_keys environ key_names = Return true
   ↔ ∀ key, key ∈ key_names →
       ∃ v, get_api_key environ key None true = Return (Some v))
  ∧ validate_required_keys environ key_names ≠ Return false.
Proof.
  assert (∀ key, (∃ v, get_api_key environ key None true = Return (Some v))
                 ↔ missing environ key = false) as Hone.
  { intros key. unfold get_api_key, missing. simpl.
    destruct (truthy_opt (os_getenv environ key None)) eqn:Hv; simpl.
    - split; [done|]. intros _. apply truthy_opt_true in Hv as (v & -> & _).
      by exists v.
    - split; [by intros [v [=]]|done]. }
  unfold validate_required_keys. split.
  - setoid_rewrite Hone.
    destruct (collect_missing environ key_names) as [|k l] eqn:Hl; simpl.
    + split; [|done]. intros _ key Hin.
      destruct (missing environ key) eqn:Hm; [|done].
      assert (key ∈ collect_missing environ key_names) as Hcoll
        by by apply elem_of_collect_missing.
      rewrite Hl in Hcoll. by apply elem_of_nil in Hcoll.
    + split; [done|]. intros Hall.
      assert (k ∈ collect_missing environ key_names) as Hcoll
        by (rewrite Hl; apply elem_of_cons; by left).
      apply elem_of_collect_missing in Hcoll as [Hin Hm].
      by rewrite (Hall k Hin) in Hm.
  - by destruct (collect_missing environ key_names).
Qed.

Lemma validate_required_keys_agrees_with_get_api_key_witness :
  validate_required_keys sample_environ ["GITHUB_TOKEN"] = Return true
  ∧ ∃ v, get_api_key ready_environ "OPENAI_API_KEY" None true = Return (Some v).
Proof.
  split.
  - apply (proj1 (validate_required_keys_agrees_with_get_api_key
                    sample_environ ["GITHUB_TOKEN"])).
    intros key ->%list_elem_of_singleton. by eexists.
  - apply (proj1 (proj1 (validate_required_keys_agrees_with_get_api_key
                           ready_environ ["GITHUB_TOKEN"; "OPENAI_API_KEY"]))).
    + reflexivity.
    + apply elem_of_cons. right. apply elem_of_cons. by left.
Defined.

(** What a required lookup returns is a non-empty string: never [None] and
    never the empty string. *)
Theorem get_api_key_required_returns_non_empty environ key
    (default : option string) (r : option string) :
  get_api_key environ key default true = Return r →
  ∃ v, r = Some v ∧ v ≠ "" ∧ os_getenv environ key default = Some v.
Proof.
  unfold get_api_key. simpl.
  destruct (truthy_opt (os_getenv environ key default)) eqn:Hv; simpl; [|done].
  intros [= <-]. apply truthy_opt_true in Hv as (v & Hv & Hne). eauto.
Qed.

Lemma get_api_key_required_returns_non_empty_witness :
  ∃ v, Some "ghp_0123456789abcdef" = Some v ∧ v ≠ ""
       ∧ os_getenv sample_environ "GITHUB_TOKEN" (Some "") = Some v.
Proof.
  apply (get_api_key_required_returns_non_empty sample_environ "GITHUB_TOKEN"
           (Some "")).
  reflexivity.
Defined.

(** The masked rendering of a value of more than eight characters is
    always eleven characters long, whatever the length of the value, and no
    rendering is longer than that. *)
Theorem masked_length_is_bounded :
  (∀ v, 8 < String.length v → String.length (masked (Some v)) = 11)
  ∧ ∀ value, String.length (masked value) ≤ 11.
Proof.
  assert (∀ v, 8 < String.length v → String.length (masked (Some v)) = 11)
    as Hlong.
  { intros v Hlen. unfold masked, last_chars.
    assert (truthy v = true) as -> by (destruct v; [simpl in Hlen; lia|done]).
    rewrite bool_decide_eq_true_2 by done. cbv [andb].
    rewrite !length_app_str, length_take_str, length_drop_str by lia.
    simpl. lia. }
  split; [done|]. intros [v|]; [|simpl; lia].
  destruct (decide (8 < String.length v)) as [Hlen|Hlen].
  - rewrite (Hlong v Hlen). lia.
  - unfold masked. rewrite bool_decide_eq_false_2 by done.
    rewrite andb_false_r. destruct (truthy v); simpl; lia.
Qed.

Lemma masked_length_is_bounded_witness :
  String.length (masked (Some "ghp_0123456789abcdef")) = 11.
Proof.
  apply (proj1 masked_length_is_bounded). simpl. lia.
Defined.

End resolver_more.

Section configs.
Import PyStr env_loader.
Implicit Types (environ : gmap string string).

Lemma lower_char_idemp (c : Ascii.ascii) : lower_char (lower_char c) = lower_char c.
Proof. by destruct c as [[] [] [] [] [] [] [] []]. Qed.

Lemma lower_idemp (s : string) : lower (lower s) = lower s.
Proof.
  induction s as [|c s IH]; [done|]. simpl. by rewrite lower_char_idemp, IH.
Qed.

(** A lookup that is not required returns what [os.getenv] gives. *)
Lemma get_api_key_optional environ (key : string) :
  get_api_key environ key None false = Return (environ !! key).
Proof.
  rewrite get_api_key_returns by (by left). by rewrite os_getenv_None.
Qed.

(** [get_model_config] never raises, whichever variables are set; it does
    not tell capitals from small letters in the provider name; and for a
    name that is none of the five providers it returns the empty dict. *)
Theorem get_model_config_never_raises environ (provider : string) :
  ∃ cfg, get_model_config environ provider = Return cfg
    ∧ get_model_config environ (lower provider) = Return cfg
    ∧ (lower provider ∉ ["openai"; "anthropic"; "google"; "cohere"; "xai"] →
       cfg = ∅).
Proof.
  unfold get_model_config. rewrite !get_api_key_optional, lower_idemp.
  unfold mbind, result_bind, mret, result_ret. cbv beta iota zeta.
  eexists. split; [done|]. split; [done|].
  intros Hunknown.
  rewrite !lookup_insert_ne, lookup_singleton_ne; [done|..];
    intros Heq; apply Hunknown; rewrite <-Heq; repeat constructor.
Qed.

(** For each of the five providers, named in any mix of capitals and small
    letters, the dict returned holds under [api_key] just what the
    environment holds for the provider's key variable, [None] when it is
    unset, and under [model] the provider's model variable when that is
    set, even to the empty string, and the provider's default model
    otherwise. *)
Theorem get_model_config_of_known_provider environ
    (provider name key_var model_var default_model : string) :
  (name, key_var, model_var, default_model)
  ∈ [("openai", "OPENAI_API_KEY", "OPENAI_MODEL", "gpt-4o");
     ("anthropic", "ANTHROPIC_API_KEY", "ANTHROPIC_MODEL",
      "claude-3-5-sonnet-20241022");
     ("google", "GOOGLE_API_KEY", "GEMINI_MODEL", "gemini-2.0-flash-exp");
     ("cohere", "COHERE_API_KEY", "COHERE_MODEL", "command-r-plus");
     ("xai", "XAI_API_KEY", "XAI_MODEL", "grok-beta")] →
  lower provider = name →
  get_model_config environ provider
  = Return {[ "api_key" := environ !! key_var;
              "model" := Some (default default_model (environ !! model_var)) ]}.
Proof.
  intros Hrow Hname.
  assert (∀ d : string, os_getenv environ model_var (Some d)
                        = Some (default d (environ !! model_var))) as Hmodel.
  { intros d. unfold os_getenv. by destruct (environ !! model_var). }
  unfold get_model_config. rewrite !get_api_key_optional, Hname.
  unfold mbind, result_bind, mret, result_ret. cbv beta iota zeta.
  repeat (apply elem_of_cons in Hrow as [[= -> -> -> ->]|Hrow]);
    [..|by apply elem_of_nil in Hrow];
    rewrite <-Hmodel;
    repeat (rewrite lookup_insert_ne by done);
    by rewrite ?lookup_insert_eq, ?lookup_singleton_eq.
Qed.

Lemma get_model_config_of_known_provider_witness :
  get_model_config sample_environ "OpenAI"
  = Return {[ "api_key" := Some ""; "model" := Some "gpt-4o" ]}.
Proof.
  apply (get_model_config_of_known_provider sample_environ "OpenAI" "openai"
           "OPENAI_API_KEY" "OPENAI_MODEL" "gpt-4o").
  - apply elem_of_cons. by left.
  - reflexivity.
Defined.

Lemma get_model_config_never_raises_witness :
  get_model_config sample_environ "mistral" = Return ∅.
Proof.
  destruct (get_model_config_never_raises sample_environ "mistral")
    as (cfg & Hcfg & _ & Hempty).
  rewrite Hcfg. f_equal. apply Hempty.
  intros Hin. repeat (apply elem_of_cons in Hin as [[=]|Hin]).
  by apply elem_of_nil in Hin.
Defined.

(** A field of a dict literal whose values are all read from the
    environment holds the value of some variable. *)
Ltac from_environ H :=
  repeat (apply lookup_insert_Some in H as [[_ H]|[_ H]]; [by eauto|]);
  apply lookup_singleton_Some in H as [_ H]; by eauto.

(** [get_service_config] never raises; it does not tell capitals from
    small letters in the service name; for a name that is none of the six
    services it returns the empty dict; and every value in the dict it
    returns is the value of some environment variable: no service setting
    has a default. *)
Theorem get_service_config_reads_environment_only environ (service : string) :
  ∃ cfg, get_service_config environ service = Return cfg
    ∧ get_service_config environ (lower service) = Return cfg
    ∧ (lower service
       ∉ ["github"; "notion"; "serp"; "tavily"; "pinecone"; "weaviate"] →
       cfg = ∅)
    ∧ ∀ (field v : string), cfg !! field = Some (Some v) →
        ∃ key, environ !! key = Some v.
Proof.
  unfold get_service_config.
  rewrite !get_api_key_optional, !os_getenv_None, lower_idemp.
  unfold mbind, result_bind, mret, result_ret. cbv beta iota zeta.
  eexists. split; [done|]. split; [done|]. split.
  - intros Hunknown.
    rewrite !lookup_insert_ne, lookup_singleton_ne; [done|..];
      intros Heq; apply Hunknown; rewrite <-Heq; repeat constructor.
  - intros field v Hlook.
    match type of Hlook with
    | default ∅ (?configs !! _) !! _ = _ =>
        destruct (configs !! lower service) as [cfg|] eqn:Hcfg
    end; simpl in Hlook; [|by rewrite lookup_empty in Hlook].
    repeat (apply lookup_insert_Some in Hcfg as [[_ <-]|[_ Hcfg]];
            [by from_environ Hlook|]).
    apply lookup_singleton_Some in Hcfg as [_ <-]. by from_environ Hlook.
Qed.

Lemma get_service_config_reads_environment_only_witness :
  get_service_config sample_environ "GitHub"
  = Return {[ "token" := Some "ghp_0123456789abcdef" ]}
  ∧ get_service_config sample_environ "slack" = Return ∅.
Proof.
  split; [reflexivity|].
  destruct (get_service_config_reads_environment_only sample_environ "slack")
    as (cfg & Hcfg & _ & Hempty & _).
  rewrite Hcfg. f_equal. apply Hempty.
  intros Hin. repeat (apply elem_of_cons in Hin as [[=]|Hin]).
  by apply elem_of_nil in Hin.
Defined.

End configs.

Section outcomes.
Import PyStr env_loader github_agent.
Implicit Types (w : world) (environ : gmap string string) (message : string).

(** Every string the invocation returns is of one of five kinds: one of
    the two missing-credential messages, the timed-out message,
    ["Error: "] followed by the text of an exception that was raised, or
    the content the agent produced within the bound. *)
Theorem run_github_agent_outcome_classes w environ message (s : string) :
  (run_github_agent w environ message).1 = Return s →
  s = missing_github_token
  ∨ s = missing_openai_key
  ∨ s = timed_out
  ∨ (∃ e, s = "Error: " +:+ exn_str e
          ∧ (mcp_connect w (server_params environ) = Some e
             ∨ (agent_arun w (new_agent (server_params environ)) message).2
               = Raise e))
  ∨ (∃ elapsed, (elapsed <= 120)%Q
       ∧ agent_arun w (new_agent (server_params environ)) message
         = (elapsed, Return s)).
Proof.
  assert (∀ (e : exn) (t : list event),
            (except_clauses (Raise e, t)).1 = Return s →
            s = timed_out ∨ s = "Error: " +:+ exn_str e) as Hexc.
  { intros e t. simpl. destruct (is_TimeoutError e); simpl; [by intros [= <-]; left|].
    destruct (is_Exception e); simpl; [by intros [= <-]; right|done]. }
  unfold run_github_agent.
  destruct (truthy_opt (os_getenv environ "GITHUB_TOKEN" None)); simpl;
    [|intros [= <-]; auto].
  destruct (truthy_opt (os_getenv environ "OPENAI_API_KEY" None)); simpl;
    [|intros [= <-]; auto].
  destruct (mcp_connect w (server_params environ)) as [e|] eqn:Hconn.
  - rewrite (try_body_connect_fails _ _ _ _ Hconn).
    intros [->| ->]%Hexc; [auto|]. do 3 right. left. eauto.
  - rewrite (try_body_connected _ _ _ Hconn). unfold timeout. cbv zeta.
    destruct (agent_arun w (new_agent (server_params environ)) message)
      as [elapsed outcome]. cbn [fst snd].
    destruct (Qle_bool 120 elapsed) eqn:Hbound.
    + simpl. intros [= <-]. auto.
    + apply Qle_bool_false_lt, Qlt_le_weak in Hbound.
      destruct outcome as [a|e].
      * simpl. intros [= <-]. do 4 right. by exists elapsed.
      * intros [->| ->]%Hexc; [auto|]. do 3 right. left. eauto.
Qed.

Lemma run_github_agent_outcome_classes_witness :
  "3 open issues" = missing_github_token
  ∨ "3 open issues" = missing_openai_key
  ∨ "3 open issues" = timed_out
  ∨ (∃ e, "3 open issues" = "Error: " +:+ exn_str e
          ∧ (mcp_connect quick_world (server_params ready_environ) = Some e
             ∨ (agent_arun quick_world (new_agent (server_params ready_environ))
                  "Show open issues").2 = Raise e))
  ∨ (∃ elapsed, (elapsed <= 120)%Q
       ∧ agent_arun quick_world (new_agent (server_params ready_environ))
           "Show open issues"
         = (elapsed, Return "3 open issues")).
Proof.
  apply (run_github_agent_outcome_classes quick_world ready_environ
           "Show open issues" "3 open issues").
  reflexivity.
Defined.

(** Two edge cases of the search. From the root directory, whose parent is
    the root itself, [load_env] returns [True] exactly when a file or a
    directory of the name is in the root. With an absolute [env_file], the
    directories searched play no part: from any working directory the call
    returns [True] exactly when that path exists, and the environment
    afterwards is what [load_dotenv] makes of that path, the file applied
    with its references expanded, or nothing for a directory. *)
Theorem load_env_at_root_and_absolute (fs : gmap (list string) entry)
    environ (env_file : file_arg) (verbose : bool) :
  returned (load_env fs [] environ env_file verbose)
  = exists_ fs (truediv [] env_file)
  ∧ ∀ (parts cwd : list string),
      returned (load_env fs cwd environ (Absolute parts) verbose)
      = exists_ fs parts
      ∧ environ_after (load_env fs cwd environ (Absolute parts) verbose)
        = load_dotenv fs parts environ.
Proof.
  split.
  - unfold load_env. rewrite search_three. simpl.
    by destruct (exists_ fs (truediv [] env_file)).
  - intros parts cwd. unfold load_env. rewrite search_three. simpl.
    destruct (exists_ fs parts) eqn:Hex; simpl; [done|].
    apply exists_false in Hex. unfold load_dotenv. by rewrite Hex.
Qed.

End outcomes.
